(** * Document AI Processor: a shallow embedding of [document_ai_app.py]

    The script is a linear pipeline run once per click on the "Process
    Document" button: credential check, input selection (uploaded file or
    pasted text), prompt construction, one chat-completion call, JSON
    interpretation of the answer with two statistics, and a download button.

    Python values are embedded as follows.
    - [str] is a list of Unicode code points ([N]); literals are written with
      [lit].
    - the values produced by [json.loads] are the inductive type [pyval];
      a [dict] is an association list in insertion order.
    - exceptions, [st.stop()] and the Streamlit calls are explicit: a run is a
      pair of a result ([Normal], [Raised], [Stopped]) and the list of the
      calls it made, in order.
    - the libraries the script calls (PyPDF2, python-docx, the UTF-8 codec,
      the OpenAI client, [json], float arithmetic, and the two Streamlit
      elements that can refuse their argument, [st.progress] and [st.code])
      are parameters of the model, gathered in two classes.
    - module [Json] embeds [json.loads] and [json.dumps] themselves, and
      module [Binary64] the floats of IEEE 754; with them the script runs on
      given inputs. *)

From Stdlib Require Import List NArith ZArith Bool String Ascii Lia.
From Stdlib Require Import SpecFloat DecimalPos.
Import ListNotations.

Set Implicit Arguments.
Set Warnings "-register-all".
Local Open Scope N_scope.

(** ** Python strings *)

Module PyStr.

Definition str := list N.

(** A literal of the script, character by character. *)
Definition lit (s : string) : str :=
  map N_of_ascii (list_ascii_of_string s).

Definition eqb (a b : str) : bool :=
  if list_eq_dec N.eq_dec a b then true else false.

(** [bool(s)]: a string is true when it is not empty. *)
Definition truthy (s : str) : bool :=
  match s with [] => false | _ :: _ => true end.

(** [s.lower()] on the letters A-Z; every other code point is kept. The
    script only asks whether the lowered key contains the ASCII word
    "confidence". *)
Definition lower_char (c : N) : N :=
  if (65 <=? c) && (c <=? 90) then c + 32 else c.

Definition lower (s : str) : str := map lower_char s.

Fixpoint startswith (p s : str) : bool :=
  match p, s with
  | [], _ => true
  | _ :: _, [] => false
  | a :: p', b :: s' => (a =? b) && startswith p' s'
  end.

(** [needle in hay] *)
Fixpoint contains (needle hay : str) : bool :=
  startswith needle hay ||
  match hay with
  | [] => false
  | _ :: t => contains needle t
  end.

(** [sep.join(parts)] *)
Fixpoint join (sep : str) (parts : list str) : str :=
  match parts with
  | [] => []
  | [p] => p
  | p :: rest => p ++ sep ++ join sep rest
  end.

(** The double quote, which the prompt of the script contains. *)
Definition dquote : str := [34].

Definition newline : str := [10].

End PyStr.
Import PyStr.

(** ** Exceptions, results and the run monad *)

Inductive exn_class :=
| AttributeError
| TypeError
| OverflowError
| ZeroDivisionError
| UnicodeDecodeError
| UnicodeEncodeError
| JSONDecodeError
| LibraryError (name : str).

(** An exception object; [exn_msg] is what [str(e)] returns. *)
Record exn := mk_exn { exn_cls : exn_class; exn_msg : str }.

Definition is_JSONDecodeError (e : exn) : bool :=
  match exn_cls e with JSONDecodeError => true | _ => false end.

(** What a library call gives back: a value or a raised exception. *)
Inductive raises (A : Type) :=
| Ok (a : A)
| Err (e : exn).
Arguments Ok {A} a.
Arguments Err {A} e.

(** ** Floating point numbers

    Python's [float] and the operations on it that the script reaches:
    [float(n)] for an [int] (it raises OverflowError when [n] is too large),
    [x + y], [x / y] (ZeroDivisionError when [y] is zero), the true division
    of two [int]s, and the format [f"{x:.0%}"]; and what the [json] module
    uses: [float(token)] on a number token, [float.__repr__], the comparison
    [x == y] and the three values [float('inf')], [float('-inf')] and
    [float('nan')]. *)

Class PyFloat := {
  float : Type;
  float_of_int : Z -> option float;
  float_add : float -> float -> float;
  float_truediv : float -> float -> option float;
  int_truediv : Z -> Z -> option float;
  format_percent : float -> str;
  float_of_str : str -> float;
  float_repr : float -> str;
  float_eqb : float -> float -> bool;
  float_inf : float;
  float_neg_inf : float;
  float_nan : float
}.

(** ** Values of [json.loads] *)

Section Values.
Context {F : PyFloat}.

Inductive pyval :=
| PNone
| PBool (b : bool)
| PInt (z : Z)
| PFloat (f : float)
| PStr (s : str)
| PList (items : list pyval)
| PDict (items : list (str * pyval)).

(** [type(v).__name__] *)
Definition type_name (v : pyval) : str :=
  match v with
  | PNone => lit "NoneType"
  | PBool _ => lit "bool"
  | PInt _ => lit "int"
  | PFloat _ => lit "float"
  | PStr _ => lit "str"
  | PList _ => lit "list"
  | PDict _ => lit "dict"
  end.

Definition isinstance_dict (v : pyval) : bool :=
  match v with PDict _ => true | _ => false end.

Definition isinstance_list (v : pyval) : bool :=
  match v with PList _ => true | _ => false end.

End Values.

(** ** One run of the script

    A run gives a result and the calls it made, in order. [Stopped] is
    [st.stop()], which leaves the script without being an [Exception]: no
    [except Exception] clause catches it. *)

Inductive result (A : Type) :=
| Normal (a : A)
| Raised (e : exn)
| Stopped.
Arguments Normal {A} a.
Arguments Raised {A} e.
Arguments Stopped {A}.

Definition bytes := list Byte.byte.

(** [st.file_uploader] gives an object with a MIME [type] and [getvalue()]. *)
Record UploadedFile := {
  file_type : str;
  getvalue : bytes
}.

(** The two options of the "Extraction Type" radio button. *)
Inductive ExtractionMode :=
| Automatic
| SchemaGuided.

Definition mode_label (m : ExtractionMode) : str :=
  match m with
  | Automatic => lit "Automatic (AI determines structure)"
  | SchemaGuided => lit "Schema-Guided (Provide JSON template)"
  end.

Section Run.
Context {F : PyFloat}.

(** The calls a run makes: the Streamlit elements it shows and the library
    entry points it reaches. *)
Inductive call :=
| st_error (msg : str)
| st_success (msg : str)
| st_subheader (title : str)
| st_json (v : pyval)
| st_metric (label : str) (value : pyval)
| st_progress (value : float)
| st_download_button (label data file_name : str)
| st_code (body : str)
| PdfReader_call (data : bytes)
| Document_call (data : bytes)
| decode_call (data : bytes)
| ChatCompletion_create_call
    (api_key model prompt : str) (temperature : float) (max_tokens : Z).

Definition M (A : Type) : Type := (result A * list call)%type.

Definition ret {A} (a : A) : M A := (Normal a, []).

Definition bind {A B} (m : M A) (k : A -> M B) : M B :=
  match m with
  | (Normal a, t) => let (r, t') := k a in (r, t ++ t')
  | (Raised e, t) => (Raised e, t)
  | (Stopped, t) => (Stopped, t)
  end.

Definition emit (c : call) : M unit := (Normal tt, [c]).

Definition raise {A} (e : exn) : M A := (Raised e, []).

Definition st_stop {A} : M A := (Stopped, []).

Definition lift {A} (r : raises A) : M A :=
  match r with
  | Ok a => ret a
  | Err e => raise e
  end.

(** [try: body  except <class> as e: handler(e)]; [catches] says which
    exceptions the clause names. *)
Definition try_except {A} (body : M A) (catches : exn -> bool)
    (handler : exn -> M A) : M A :=
  match body with
  | (Raised e, t) =>
      if catches e then let (r, t') := handler e in (r, t ++ t')
      else (Raised e, t)
  | other => other
  end.

(** [except Exception]: every exception of the model is one. *)
Definition Exception (e : exn) : bool := true.

End Run.

Notation "x <- m ;; k" := (bind m (fun x => k))
  (at level 61, m at next level, right associativity).
Notation "m ;;; k" := (bind m (fun _ => k))
  (at level 61, right associativity).

(** ** The libraries the script calls *)

Class Libraries {F : PyFloat} := {
  (** [PyPDF2.PdfReader(BytesIO(data)).pages] and [page.extract_text()] *)
  pdf_page : Type;
  PdfReader_pages : bytes -> raises (list pdf_page);
  page_extract_text : pdf_page -> raises str;
  (** [Document(BytesIO(data)).paragraphs] and [para.text] *)
  docx_paragraph : Type;
  Document_paragraphs : bytes -> raises (list docx_paragraph);
  paragraph_text : docx_paragraph -> raises str;
  (** [str(data, "utf-8")] *)
  decode_utf8 : bytes -> raises str;
  (** [openai.ChatCompletion.create(...)] with the key set, up to
      [response.choices[0].message.content] *)
  ChatCompletion_create : str -> str -> str -> float -> Z -> raises str;
  (** [json.loads(text)] and [json.dumps(value, indent=2)] *)
  json_loads : str -> raises pyval;
  json_dumps : pyval -> str;
  (** [st.progress(value)] raises when it refuses the value *)
  st_progress_raises : float -> option exn;
  (** [st.code(body)] raises when the text cannot be sent to the browser *)
  st_code_raises : str -> option exn
}.

(** ** The script *)

Section Script.
Context {F : PyFloat} {L : Libraries}.

(** The widget values when the button is pressed. *)
Record Widgets := {
  api_key : str;
  model : str;
  extraction_mode : ExtractionMode;
  temperature : float;
  max_tokens : Z;
  uploaded_file : option UploadedFile;
  text_input : str;
  schema_template : str
}.

(** A list comprehension over calls that may raise: left to right, the first
    exception ends it. *)
Fixpoint comprehension {A B} (f : A -> raises B) (l : list A)
    : raises (list B) :=
  match l with
  | [] => Ok []
  | a :: rest =>
      match f a with
      | Err e => Err e
      | Ok b =>
          match comprehension f rest with
          | Err e => Err e
          | Ok bs => Ok (b :: bs)
          end
      end
  end.

Definition pdf_mime : str := lit "application/pdf".
Definition docx_mime : str :=
  lit "application/vnd.openxmlformats-officedocument.wordprocessingml.document".
Definition text_mime : str := lit "text/plain".

(** [extract_text(file)]; the result [None] is Python's [None]. *)
Definition extract_text (file : UploadedFile) : M (option str) :=
  if eqb (file_type file) pdf_mime then
    try_except
      (emit (PdfReader_call (getvalue file)) ;;;
       pages <- lift (PdfReader_pages (getvalue file)) ;;
       texts <- lift (comprehension page_extract_text pages) ;;
       ret (Some (join newline texts)))
      Exception
      (fun e => emit (st_error (lit "PDF error: " ++ exn_msg e)) ;;; ret None)
  else if eqb (file_type file) docx_mime then
    try_except
      (emit (Document_call (getvalue file)) ;;;
       paragraphs <- lift (Document_paragraphs (getvalue file)) ;;
       texts <- lift (comprehension paragraph_text paragraphs) ;;
       ret (Some (join newline texts)))
      Exception
      (fun e => emit (st_error (lit "Word error: " ++ exn_msg e)) ;;; ret None)
  else if eqb (file_type file) text_mime then
    emit (decode_call (getvalue file)) ;;;
    text <- lift (decode_utf8 (getvalue file)) ;;
    ret (Some text)
  else
    emit (st_error (lit "Unsupported file type: " ++ file_type file)) ;;;
    ret None.

(** [schema = None], then the text area when the mode is schema-guided. *)
Definition schema (w : Widgets) : option str :=
  match extraction_mode w with
  | SchemaGuided => Some (schema_template w)
  | Automatic => None
  end.

(** [{schema}] inside the f-string *)
Definition format_schema (s : option str) : str :=
  match s with
  | Some text => text
  | None => lit "None"
  end.

(** The lines of the prompt literals are indented by sixteen spaces, blank
    lines too; the literal opens with a line break and closes after the
    indentation of its last line. *)
Definition indent : str := lit "                ".

Definition block (lines : list str) : str :=
  newline ++ flat_map (fun l => indent ++ l ++ newline) lines ++ indent.

(** Rules 3 and 4 of the schema-guided prompt. *)
Definition confidence_rule : str :=
  lit "3. Add " ++ dquote ++ lit "_confidence" ++ dquote
    ++ lit " scores (0-1) for each field".

Definition json_only_rule : str := lit "4. Return ONLY valid JSON".

Definition schema_prompt (schema : option str) (input_text : str) : str :=
  block [
    lit "Convert this document into JSON following exactly this schema:";
    format_schema schema;
    [];
    lit "Document content:";
    input_text;
    [];
    lit "Rules:";
    lit "1. Include all available data";
    lit "2. Mark missing fields as null";
    confidence_rule;
    json_only_rule
  ].

Definition automatic_prompt (input_text : str) : str :=
  block [
    lit "Analyze this document and extract structured data as comprehensive JSON.";
    lit "Include:";
    lit "- Key entities (people, organizations, locations)";
    lit "- Important dates and numbers";
    lit "- Relationships between entities";
    lit "- Key-value pairs";
    lit "- Document structure";
    [];
    lit "Add confidence scores for each extracted field.";
    lit "Return ONLY the JSON output.";
    [];
    lit "Document:";
    input_text
  ].

Definition build_prompt (w : Widgets) (input_text : str) : str :=
  match extraction_mode w with
  | SchemaGuided => schema_prompt (schema w) input_text
  | Automatic => automatic_prompt input_text
  end.

(** *** Confidence analysis *)

(** ["confidence" in str(k).lower()]; the keys of a parsed object are
    strings, so [str(k)] is [k]. *)
Definition confidence_key (k : str) : bool :=
  contains (lit "confidence") (lower k).

(** [json_data.keys()]: only a [dict] has the method. *)
Definition keys (json_data : pyval) : raises (list str) :=
  match json_data with
  | PDict items => Ok (map fst items)
  | v =>
      Err (mk_exn AttributeError
             (lit "'" ++ type_name v ++ lit "' object has no attribute 'keys'"))
  end.

(** [find_confidences(data)] appends to the list [confidences] of the
    enclosing scope; the list is threaded through. *)
Fixpoint find_confidences (data : pyval) (confidences : list pyval)
    : list pyval :=
  match data with
  | PDict items =>
      (fix each (items : list (str * pyval)) (confidences : list pyval) :=
         match items with
         | [] => confidences
         | (k, v) :: rest =>
             each rest
               (if confidence_key k then confidences ++ [v]
                else find_confidences v confidences)
         end) items confidences
  | PList items =>
      (fix each (items : list pyval) (confidences : list pyval) :=
         match items with
         | [] => confidences
         | item :: rest => each rest (find_confidences item confidences)
         end) items confidences
  | _ => confidences
  end.

(** The running total of [sum]: it starts at the [int] 0 and stays an [int]
    or becomes a [float]. *)
Inductive number :=
| NInt (z : Z)
| NFloat (f : float).

Definition number_type_name (n : number) : str :=
  match n with
  | NInt _ => lit "int"
  | NFloat _ => lit "float"
  end.

Definition overflow : exn :=
  mk_exn OverflowError (lit "int too large to convert to float").

Definition to_float (z : Z) : raises float :=
  match float_of_int z with
  | Some x => Ok x
  | None => Err overflow
  end.

(** [total + v] *)
Definition add (total : number) (v : pyval) : raises number :=
  match total, v with
  | NInt a, PInt b => Ok (NInt (a + b))
  | NInt a, PBool b => Ok (NInt (a + Z.b2z b))
  | NInt a, PFloat y =>
      match to_float a with
      | Ok x => Ok (NFloat (float_add x y))
      | Err e => Err e
      end
  | NFloat x, PInt b =>
      match to_float b with
      | Ok y => Ok (NFloat (float_add x y))
      | Err e => Err e
      end
  | NFloat x, PBool b =>
      match to_float (Z.b2z b) with
      | Ok y => Ok (NFloat (float_add x y))
      | Err e => Err e
      end
  | NFloat x, PFloat y => Ok (NFloat (float_add x y))
  | _, _ =>
      Err (mk_exn TypeError
             (lit "unsupported operand type(s) for +: '"
                ++ number_type_name total ++ lit "' and '"
                ++ type_name v ++ lit "'"))
  end.

(** [sum(values)], from the left, starting at an accumulator *)
Fixpoint sum_from (total : number) (values : list pyval) : raises number :=
  match values with
  | [] => Ok total
  | v :: rest =>
      match add total v with
      | Ok total' => sum_from total' rest
      | Err e => Err e
      end
  end.

Definition sum (values : list pyval) : raises number :=
  sum_from (NInt 0) values.

(** [total / n] for an [int] [n] *)
Definition truediv (total : number) (n : Z) : raises float :=
  if (n =? 0)%Z then
    Err (mk_exn ZeroDivisionError (lit "division by zero"))
  else
    match total with
    | NInt a =>
        match int_truediv a n with
        | Some q => Ok q
        | None =>
            Err (mk_exn OverflowError
                   (lit "integer division result too large for a float"))
        end
    | NFloat x =>
        match to_float n with
        | Err e => Err e
        | Ok y =>
            match float_truediv x y with
            | Some q => Ok q
            | None =>
                Err (mk_exn ZeroDivisionError (lit "float division by zero"))
            end
        end
    end.

Definition len {A} (l : list A) : Z := Z.of_nat (List.length l).

(** [sum(confidences)/len(confidences)] *)
Definition average (confidences : list pyval) : raises float :=
  match sum confidences with
  | Err e => Err e
  | Ok total => truediv total (len confidences)
  end.

(** The "Confidence analysis" block, lines 178-196, up to the assignment of
    [avg_conf]: [None] when the block does not reach it. *)
Definition average_confidence (json_data : pyval) : raises (option float) :=
  match keys json_data with
  | Err e => Err e
  | Ok ks =>
      if existsb confidence_key ks then
        let confidences := find_confidences json_data [] in
        match confidences with
        | [] => Ok None
        | _ :: _ =>
            match average confidences with
            | Ok avg_conf => Ok (Some avg_conf)
            | Err e => Err e
            end
        end
      else Ok None
  end.

(** The block with the two elements it shows when [avg_conf] is there. *)
Definition confidence_analysis (json_data : pyval) : M unit :=
  statistic <- lift (average_confidence json_data) ;;
  match statistic with
  | None => ret tt
  | Some avg_conf =>
      emit (st_metric (lit "Average Confidence")
              (PStr (format_percent avg_conf))) ;;;
      match st_progress_raises avg_conf with
      | Some e => raise e
      | None => emit (st_progress avg_conf)
      end
  end.

(** The body of the inner [try], lines 160-204. *)
Definition show_result (result : str) : M unit :=
  json_data <- lift (json_loads result) ;;
  emit (st_success (9989 :: lit " Extraction complete!")) ;;;
  emit (st_subheader (lit "Structured Data")) ;;;
  emit (st_json json_data) ;;;
  emit (st_subheader (lit "Analysis")) ;;;
  (if isinstance_dict json_data then
     emit (st_metric (lit "Total Fields")
             (PInt (match json_data with
                    | PDict items => len items
                    | _ => 0%Z
                    end)))
   else ret tt) ;;;
  confidence_analysis json_data ;;;
  emit (st_download_button (128190 :: lit " Download JSON")
          (json_dumps json_data) (lit "extracted_data.json")).

(** Lines 159-209: the inner [try] with its [except json.JSONDecodeError].
    An exception of [st.code] is raised inside the handler, so it leaves the
    inner [try] and reaches the outer one. *)
Definition interpret (result : str) : M unit :=
  try_except (show_result result) is_JSONDecodeError
    (fun _ =>
       emit (st_error
               (lit "The AI returned invalid JSON. Below is the raw Response")) ;;;
       match st_code_raises result with
       | Some e => raise e
       | None => emit (st_code result)
       end).

(** Lines 114-212: the outer [try] with its [except Exception]. *)
Definition analyze (w : Widgets) (input_text : str) : M unit :=
  try_except
    (let prompt := build_prompt w input_text in
     emit (ChatCompletion_create_call (api_key w) (model w) prompt
             (temperature w) (max_tokens w)) ;;;
     result <- lift (ChatCompletion_create (api_key w) (model w) prompt
                       (temperature w) (max_tokens w)) ;;
     interpret result)
    Exception
    (fun e => emit (st_error (lit "Processing failed: " ++ exn_msg e))).

(** Lines 102-111: the input text, from the uploaded file or the text area. *)
Definition get_input_text (w : Widgets) : M str :=
  match uploaded_file w with
  | Some file =>
      input_text <- extract_text file ;;
      match input_text with
      | Some text => if truthy text then ret text else st_stop
      | None => st_stop
      end
  | None =>
      if truthy (text_input w) then ret (text_input w)
      else
        emit (st_error (lit "Please upload a file or paste text")) ;;;
        st_stop
  end.

(** Lines 96-212: what a click on "Process Document" runs. *)
Definition process (w : Widgets) : M unit :=
  (if negb (truthy (api_key w)) then
     emit (st_error (lit "Please enter your OpenAI API key")) ;;;
     st_stop
   else ret tt) ;;;
  input_text <- get_input_text w ;;
  analyze w input_text.

End Script.

(** ** The [json] module

    [json.loads] for a [str] and [json.dumps(value, indent=2)], after
    CPython's decoder (scanner, [scanstring], [JSONArray], [JSONObject]) and
    encoder ([encode_basestring_ascii], [_iterencode_list],
    [_iterencode_dict]). The decoder works on the text that is left instead of
    an index into it; positions only appear in the message of a
    JSONDecodeError, which the script never reads. Recursion is bounded by a
    fuel argument; [loads] gives it the length of the text. *)

Module Json.
Section Json.
Context {F : PyFloat}.

Definition is_ws (c : N) : bool :=
  (c =? 32) || (c =? 9) || (c =? 10) || (c =? 13).

(** [WHITESPACE.match(s, end).end()] *)
Fixpoint skip_ws (s : str) : str :=
  match s with
  | c :: rest => if is_ws c then skip_ws rest else s
  | [] => []
  end.

Definition is_digit (c : N) : bool := (48 <=? c) && (c <=? 57).

Definition hex_value (c : N) : option N :=
  if (48 <=? c) && (c <=? 57) then Some (c - 48)
  else if (97 <=? c) && (c <=? 102) then Some (c - 87)
  else if (65 <=? c) && (c <=? 70) then Some (c - 55)
  else None.

(** The four hexadecimal digits of a [\uXXXX] escape. *)
Definition decode_uXXXX (h1 h2 h3 h4 : N) : option N :=
  match hex_value h1, hex_value h2, hex_value h3, hex_value h4 with
  | Some a, Some b, Some c, Some d => Some (((a * 16 + b) * 16 + c) * 16 + d)
  | _, _, _, _ => None
  end.

Definition is_high_surrogate (c : N) : bool := (55296 <=? c) && (c <=? 56319).
Definition is_low_surrogate (c : N) : bool := (56320 <=? c) && (c <=? 57343).

(** The table [BACKSLASH] of the one-character escapes. *)
Definition backslash (esc : N) : option N :=
  if esc =? 34 then Some 34
  else if esc =? 92 then Some 92
  else if esc =? 47 then Some 47
  else if esc =? 98 then Some 8
  else if esc =? 102 then Some 12
  else if esc =? 110 then Some 10
  else if esc =? 114 then Some 13
  else if esc =? 116 then Some 9
  else None.

Definition prepend (c : N) (r : option (str * str)) : option (str * str) :=
  match r with
  | Some (content, rest) => Some (c :: content, rest)
  | None => None
  end.

(** [scanstring(s, end, strict=True)], from just after the opening quote:
    the content of the string and the text after the closing quote. *)
Fixpoint scanstring (s : str) : option (str * str) :=
  match s with
  | [] => None
  | c :: rest =>
      if c =? 34 then Some ([], rest)
      else if c =? 92 then
        match rest with
        | [] => None
        | esc :: rest1 =>
            if esc =? 117 then
              match rest1 with
              | h1 :: h2 :: h3 :: h4 :: rest2 =>
                  match decode_uXXXX h1 h2 h3 h4 with
                  | None => None
                  | Some uni =>
                      match rest2 with
                      | b :: u :: g1 :: g2 :: g3 :: g4 :: rest3 =>
                          if is_high_surrogate uni && (b =? 92) && (u =? 117)
                          then
                            match decode_uXXXX g1 g2 g3 g4 with
                            | None => None
                            | Some uni2 =>
                                if is_low_surrogate uni2 then
                                  prepend
                                    (65536 +
                                     N.lor (N.shiftl (uni - 55296) 10)
                                           (uni2 - 56320))
                                    (scanstring rest3)
                                else prepend uni (scanstring rest2)
                            end
                          else prepend uni (scanstring rest2)
                      | _ => prepend uni (scanstring rest2)
                      end
                  end
              | _ => None
              end
            else
              match backslash esc with
              | Some char => prepend char (scanstring rest1)
              | None => None
              end
        end
      else if c <? 32 then None
      else prepend c (scanstring rest)
  end.

(** *** Numbers: [NUMBER_RE], [int] and [float] *)

Fixpoint take_digits (s : str) : str * str :=
  match s with
  | c :: rest =>
      if is_digit c then
        let (ds, rest') := take_digits rest in (c :: ds, rest')
      else ([], s)
  | [] => ([], [])
  end.

(** The first group of [NUMBER_RE]: an optional minus sign, then a single
    zero or a digit from 1 to 9 followed by any digits. *)
Definition match_integer (s : str) : option (str * str) :=
  let (sign, s1) :=
    match s with
    | c :: rest => if c =? 45 then ([45], rest) else ([], s)
    | [] => ([], s)
    end in
  match s1 with
  | c :: rest =>
      if c =? 48 then Some (sign ++ [48], rest)
      else if is_digit c then
        let (ds, rest') := take_digits rest in Some (sign ++ c :: ds, rest')
      else None
  | [] => None
  end.

(** The second group: a dot and at least one digit. *)
Definition match_frac (s : str) : option (str * str) :=
  match s with
  | dot :: c :: rest =>
      if (dot =? 46) && is_digit c then
        let (ds, rest') := take_digits rest in Some (dot :: c :: ds, rest')
      else None
  | _ => None
  end.

(** The third group: e or E, an optional sign, at least one digit. *)
Definition match_exp (s : str) : option (str * str) :=
  match s with
  | e :: c :: rest =>
      if (e =? 101) || (e =? 69) then
        if is_digit c then
          let (ds, rest') := take_digits rest in Some (e :: c :: ds, rest')
        else if (c =? 45) || (c =? 43) then
          match rest with
          | d :: rest1 =>
              if is_digit d then
                let (ds, rest') := take_digits rest1 in
                Some (e :: c :: d :: ds, rest')
              else None
          | [] => None
          end
        else None
      else None
  | _ => None
  end.

(** The decimal value of a string of digits. *)
Definition digits_value (ds : str) : N :=
  fold_left (fun acc d => 10 * acc + (d - 48)) ds 0.

(** [int(integer)] on the first group of [NUMBER_RE] *)
Definition parse_int (integer : str) : Z :=
  match integer with
  | c :: ds => if c =? 45 then (- Z.of_N (digits_value ds))%Z
               else Z.of_N (digits_value integer)
  | [] => 0%Z
  end.

(** [match_number] and the choice between [parse_int] and [parse_float] *)
Definition scan_number (s : str) : option (pyval * str) :=
  match match_integer s with
  | None => None
  | Some (integer, s1) =>
      let (frac, s2) :=
        match match_frac s1 with
        | Some (frac, s2) => (frac, s2)
        | None => ([], s1)
        end in
      let (exp, s3) :=
        match match_exp s2 with
        | Some (exp, s3) => (exp, s3)
        | None => ([], s2)
        end in
      match frac ++ exp with
      | [] => Some (PInt (parse_int integer), s3)
      | _ :: _ => Some (PFloat (float_of_str (integer ++ frac ++ exp)), s3)
      end
  end.

(** [s[idx:idx + len(word)] == word], with what follows *)
Fixpoint after (word s : str) : option str :=
  match word, s with
  | [], _ => Some s
  | a :: word', b :: s' => if a =? b then after word' s' else None
  | _ :: _, [] => None
  end.

(** [dict(pairs)]: a later pair with a known key replaces the value in place,
    a new key goes to the end. *)
Fixpoint dict_set (d : list (str * pyval)) (k : str) (v : pyval)
    : list (str * pyval) :=
  match d with
  | [] => [(k, v)]
  | (k', v') :: rest =>
      if PyStr.eqb k' k then (k', v) :: rest
      else (k', v') :: dict_set rest k v
  end.

Definition dict (pairs : list (str * pyval)) : list (str * pyval) :=
  fold_left (fun d kv => dict_set d (fst kv) (snd kv)) pairs [].

(** *** The scanner

    [scan_once] is [_scan_once]; [JSONArray_loop] and [JSONObject_loop] are
    the [while True] loops of [JSONArray] and [JSONObject], one iteration per
    call. [None] stands for the JSONDecodeError that [loads] ends with. *)

Fixpoint scan_once (fuel : nat) (s : str) {struct fuel}
    : option (pyval * str) :=
  match fuel with
  | O => None
  | S fuel' =>
      match s with
      | [] => None
      | nextchar :: rest =>
          if nextchar =? 34 then
            match scanstring rest with
            | Some (content, s') => Some (PStr content, s')
            | None => None
            end
          else if nextchar =? 123 then
            (* JSONObject *)
            match skip_ws rest with
            | c :: s1 =>
                if c =? 125 then Some (PDict [], s1)
                else if c =? 34 then
                  match JSONObject_loop fuel' s1 with
                  | Some (pairs, s') => Some (PDict (dict pairs), s')
                  | None => None
                  end
                else None
            | [] => None
            end
          else if nextchar =? 91 then
            (* JSONArray *)
            match skip_ws rest with
            | c :: s1 =>
                if c =? 93 then Some (PList [], s1)
                else
                  match JSONArray_loop fuel' (c :: s1) with
                  | Some (values, s') => Some (PList values, s')
                  | None => None
                  end
            | [] => None
            end
          else
            match after (lit "null") s with
            | Some s' => Some (PNone, s')
            | None =>
            match after (lit "true") s with
            | Some s' => Some (PBool true, s')
            | None =>
            match after (lit "false") s with
            | Some s' => Some (PBool false, s')
            | None =>
            match scan_number s with
            | Some r => Some r
            | None =>
            match after (lit "NaN") s with
            | Some s' => Some (PFloat float_nan, s')
            | None =>
            match after (lit "Infinity") s with
            | Some s' => Some (PFloat float_inf, s')
            | None =>
            match after (lit "-Infinity") s with
            | Some s' => Some (PFloat float_neg_inf, s')
            | None => None
            end end end end end end end
      end
  end

with JSONArray_loop (fuel : nat) (s : str) {struct fuel}
    : option (list pyval * str) :=
  match fuel with
  | O => None
  | S fuel' =>
      match scan_once fuel' s with
      | None => None
      | Some (value, s1) =>
          match skip_ws s1 with
          | [] => None
          | nextchar :: s2 =>
              if nextchar =? 93 then Some ([value], s2)
              else if nextchar =? 44 then
                match JSONArray_loop fuel' (skip_ws s2) with
                | Some (values, s') => Some (value :: values, s')
                | None => None
                end
              else None
          end
      end
  end

with JSONObject_loop (fuel : nat) (s : str) {struct fuel}
    : option (list (str * pyval) * str) :=
  match fuel with
  | O => None
  | S fuel' =>
      match scanstring s with
      | None => None
      | Some (key, s1) =>
          match skip_ws s1 with
          | [] => None
          | colon :: s2 =>
              if colon =? 58 then
                match scan_once fuel' (skip_ws s2) with
                | None => None
                | Some (value, s3) =>
                    match skip_ws s3 with
                    | [] => None
                    | nextchar :: s4 =>
                        if nextchar =? 125 then Some ([(key, value)], s4)
                        else if nextchar =? 44 then
                          match skip_ws s4 with
                          | quote :: s5 =>
                              if quote =? 34 then
                                match JSONObject_loop fuel' s5 with
                                | Some (pairs, s') =>
                                    Some ((key, value) :: pairs, s')
                                | None => None
                                end
                              else None
                          | [] => None
                          end
                        else None
                    end
                end
              else None
          end
      end
  end.

(** [json.loads(s)] for a [str]: no byte order mark, one value between
    optional whitespace, nothing after it. *)
Definition loads (s : str) : option pyval :=
  if startswith [65279] s then None
  else
    match scan_once (List.length s) (skip_ws s) with
    | None => None
    | Some (obj, rest) =>
        match skip_ws rest with
        | [] => Some obj
        | _ :: _ => None
        end
    end.

(** *** The encoder *)

Definition hex_digit (n : N) : N :=
  if n <? 10 then 48 + n else 87 + n.

(** ['\\u{0:04x}'.format(n)], used for [n] below 0x10000 *)
Definition u_escape (n : N) : str :=
  [92; 117; hex_digit (n / 4096); hex_digit ((n / 256) mod 16);
   hex_digit ((n / 16) mod 16); hex_digit (n mod 16)].

(** [replace(match)] of [py_encode_basestring_ascii], on every character:
    the characters from space to tilde other than the quote and the
    backslash are not matched by [ESCAPE_ASCII] and stay. *)
Definition escape_char (c : N) : str :=
  if c =? 92 then [92; 92]
  else if c =? 34 then [92; 34]
  else if c =? 8 then [92; 98]
  else if c =? 12 then [92; 102]
  else if c =? 10 then [92; 110]
  else if c =? 13 then [92; 114]
  else if c =? 9 then [92; 116]
  else if (32 <=? c) && (c <=? 126) then [c]
  else if c <? 65536 then u_escape c
  else
    let n := c - 65536 in
    u_escape (N.lor 55296 (N.land (N.shiftr n 10) 1023))
      ++ u_escape (N.lor 56320 (N.land n 1023)).

Definition encode_basestring_ascii (s : str) : str :=
  34 :: flat_map escape_char s ++ [34].

Fixpoint uint_chars (d : Decimal.uint) : str :=
  match d with
  | Decimal.Nil => []
  | Decimal.D0 d' => 48 :: uint_chars d'
  | Decimal.D1 d' => 49 :: uint_chars d'
  | Decimal.D2 d' => 50 :: uint_chars d'
  | Decimal.D3 d' => 51 :: uint_chars d'
  | Decimal.D4 d' => 52 :: uint_chars d'
  | Decimal.D5 d' => 53 :: uint_chars d'
  | Decimal.D6 d' => 54 :: uint_chars d'
  | Decimal.D7 d' => 55 :: uint_chars d'
  | Decimal.D8 d' => 56 :: uint_chars d'
  | Decimal.D9 d' => 57 :: uint_chars d'
  end.

(** [int.__repr__] *)
Definition int_repr (z : Z) : str :=
  match z with
  | Z0 => [48]
  | Zpos p => uint_chars (Pos.to_uint p)
  | Zneg p => 45 :: uint_chars (Pos.to_uint p)
  end.

(** [floatstr(o)] with [allow_nan] *)
Definition floatstr (o : float) : str :=
  if negb (float_eqb o o) then lit "NaN"
  else if float_eqb o float_inf then lit "Infinity"
  else if float_eqb o float_neg_inf then lit "-Infinity"
  else float_repr o.

(** ['\n' + _indent * level] for the indent of two spaces *)
Definition newline_indent (level : nat) : str :=
  10 :: repeat 32 (2 * level).

(** [_iterencode(o, level)] with its list and dict cases, all chunks
    joined. *)
Fixpoint iterencode (o : pyval) (level : nat) : str :=
  match o with
  | PStr s => encode_basestring_ascii s
  | PNone => lit "null"
  | PBool true => lit "true"
  | PBool false => lit "false"
  | PInt z => int_repr z
  | PFloat f => floatstr f
  | PList [] => lit "[]"
  | PList items =>
      [91] ++ newline_indent (S level)
        ++ join (44 :: newline_indent (S level))
             (map (fun value => iterencode value (S level)) items)
        ++ newline_indent level ++ [93]
  | PDict [] => lit "{}"
  | PDict items =>
      [123] ++ newline_indent (S level)
        ++ join (44 :: newline_indent (S level))
             (map (fun kv =>
                     encode_basestring_ascii (fst kv) ++ lit ": "
                       ++ iterencode (snd kv) (S level)) items)
        ++ newline_indent level ++ [125]
  end.

(** [json.dumps(o, indent=2)] *)
Definition dumps (o : pyval) : str := iterencode o 0.

End Json.
End Json.

(** ** IEEE 754 binary64

    An instance of [PyFloat] on the Standard Library's specification of
    floating point numbers, with 53 bits of precision and rounding to nearest
    even, as CPython has on the usual platforms. *)

Module Binary64.

Local Open Scope Z_scope.

Definition prec : Z := 53.
Definition emax : Z := 1024.

Definition is_infinity (x : spec_float) : bool :=
  match x with S754_infinity _ => true | _ => false end.

(** The float nearest to the quotient of two integers, [den] positive. *)
Definition of_ratio (num den : Z) : spec_float :=
  match num, den with
  | Z0, _ => S754_zero false
  | _, Zpos d =>
      let '(m, e, l) :=
        SFdiv_core_binary prec emax (Z.abs num) 0 (Zpos d) 0 in
      binary_round_aux prec emax (num <? 0) m e l
  | _, _ => S754_nan
  end.

Definition of_int (z : Z) : option spec_float :=
  let x := binary_normalize prec emax z 0 false in
  if is_infinity x then None else Some x.

Definition truediv (x y : spec_float) : option spec_float :=
  match y with
  | S754_zero _ => None
  | _ => Some (SFdiv prec emax x y)
  end.

Definition int_div (a b : Z) : option spec_float :=
  let x :=
    match b with
    | Z0 => S754_nan
    | Zpos _ => of_ratio a b
    | Zneg _ =>
        match a with
        | Z0 => S754_zero true
        | _ => of_ratio (- a) (- b)
        end
    end in
  if is_infinity x then None else Some x.

(** The float nearest to [mantissa * 10 ^ exponent]. *)
Definition of_decimal (negative : bool) (mantissa : N) (exponent : Z)
    : spec_float :=
  match mantissa with
  | N0 => S754_zero negative
  | Npos p =>
      let m := if negative then Zneg p else Zpos p in
      if 0 <=? exponent then
        binary_normalize prec emax (m * 10 ^ exponent) 0 false
      else of_ratio m (10 ^ (- exponent))
  end.

(** [float(token)] on a number token: sign, digits, fraction, exponent. *)
Definition of_str (token : str) : spec_float :=
  let (negative, s0) :=
    match token with
    | c :: rest => if (c =? 45)%N then (true, rest) else (false, token)
    | [] => (false, token)
    end in
  let (int_digits, s1) := Json.take_digits s0 in
  let (frac_digits, s2) :=
    match s1 with
    | c :: rest => if (c =? 46)%N then Json.take_digits rest else ([], s1)
    | [] => ([], s1)
    end in
  let exponent :=
    match s2 with
    | _ :: c :: rest =>
        if (c =? 45)%N then - Z.of_N (Json.digits_value rest)
        else if (c =? 43)%N then Z.of_N (Json.digits_value rest)
        else Z.of_N (Json.digits_value (c :: rest))
    | _ => 0
    end in
  of_decimal negative (Json.digits_value (int_digits ++ frac_digits))
    (exponent - Z.of_nat (List.length frac_digits)).

(** The integer nearest to a quotient of positive integers, ties to even. *)
Definition round_ratio (num den : Z) : Z :=
  let q := num / den in
  let r := num mod den in
  match 2 * r ?= den with
  | Lt => q
  | Gt => q + 1
  | Eq => if Z.even q then q else q + 1
  end.

(** The magnitude of a finite float as a quotient of integers. *)
Definition ratio_of (m : positive) (e : Z) : Z * Z :=
  if 0 <=? e then (Zpos m * 2 ^ e, 1) else (Zpos m, 2 ^ (- e)).

Definition nb_digits (z : Z) : Z :=
  Z.of_nat (Decimal.nb_digits (N.to_uint (Z.to_N z))).

(** The decimal exponent [k] with [10^k <= num/den < 10^(k+1)]. *)
Definition decimal_exponent (num den : Z) : Z :=
  if den <=? num then nb_digits (num / den) - 1
  else - nb_digits ((den + num - 1) / num - 1).

(** [num/den] rounded to [n] significant digits: the digits and the decimal
    exponent of the first one. *)
Definition to_digits (num den : Z) (n : Z) : Z * Z :=
  let k := decimal_exponent num den in
  let shift := k - n + 1 in
  let d :=
    if 0 <=? shift then round_ratio num (den * 10 ^ shift)
    else round_ratio (num * 10 ^ (- shift)) den in
  if d =? 10 ^ n then (10 ^ (n - 1), k + 1) else (d, k).

(** The decimal of [n] significant digits on the other side of [num/den]:
    the one next to it that [to_digits] has not chosen. *)
Definition other_digits (num den : Z) (n : Z) : Z * Z :=
  let k := decimal_exponent num den in
  let shift := k - n + 1 in
  let (a, b) :=
    if 0 <=? shift then (num, den * 10 ^ shift)
    else (num * 10 ^ (- shift), den) in
  let q := a / b in
  let d := if round_ratio a b =? q then q + 1 else q in
  if d =? 10 ^ n then (10 ^ (n - 1), k + 1) else (d, k).

(** The digits [d] with the decimal exponent [k] read back as [x]. *)
Definition reads_back (x : spec_float) (n : Z) (digits : Z * Z) : bool :=
  let (d, k) := digits in
  match SFcompare (of_decimal false (Z.to_N d) (k - n + 1)) (SFabs x) with
  | Some Eq => true
  | _ => false
  end.

(** The shortest digits that read back as the float itself: for every count
    of significant digits, from [n] on, the two decimals next to the float
    are tried, the nearer one first. Seventeen digits always read back. *)
Fixpoint shortest (fuel : nat) (n : Z) (x : spec_float) (num den : Z)
    : Z * Z * Z :=
  let near := to_digits num den n in
  match fuel with
  | O => (near, n)
  | S fuel' =>
      if reads_back x n near then (near, n)
      else
        let far := other_digits num den n in
        if reads_back x n far then (far, n)
        else shortest fuel' (n + 1) x num den
  end.

Definition digit_chars (z : Z) : str := Json.uint_chars (N.to_uint (Z.to_N z)).

Fixpoint strip_zeros_rev (r : str) : str :=
  match r with
  | c :: rest => if (c =? 48)%N then strip_zeros_rev rest else r
  | [] => []
  end.

Definition strip_trailing_zeros (s : str) : str :=
  rev (strip_zeros_rev (rev s)).

Definition zeros (n : Z) : str := repeat 48%N (Z.to_nat n).

(** [float.__repr__] of a finite float: the shortest digits that read back,
    in positional notation when the decimal exponent is between -4 and 15,
    with an exponent otherwise. *)
Definition repr (x : spec_float) : str :=
  match x with
  | S754_zero false => lit "0.0"
  | S754_zero true => lit "-0.0"
  | S754_infinity false => lit "inf"
  | S754_infinity true => lit "-inf"
  | S754_nan => lit "nan"
  | S754_finite s m e =>
      let (num, den) := ratio_of m e in
      let '(d, k, n) := shortest 16 1 x num den in
      let digits := strip_trailing_zeros (digit_chars d) in
      let digits := match digits with [] => [48%N] | _ => digits end in
      let len := Z.of_nat (List.length digits) in
      let sign := if s then [45%N] else [] in
      sign ++
      if (k <? -4) || (16 <=? k) then
        firstn 1 digits
          ++ match skipn 1 digits with
             | [] => []
             | more => 46%N :: more
             end
          ++ [101%N]
          ++ (if k <? 0 then [45%N] else [43%N])
          ++ (if Z.abs k <? 10 then [48%N] else [])
          ++ digit_chars (Z.abs k)
      else if k <? 0 then
        lit "0." ++ zeros (- k - 1) ++ digits
      else if len <=? k + 1 then
        digits ++ zeros (k + 1 - len) ++ lit ".0"
      else
        firstn (Z.to_nat (k + 1)) digits
          ++ 46%N :: skipn (Z.to_nat (k + 1)) digits
  end.

(** ["%f" % x]: six digits after the point. *)
Definition fixed6 (x : spec_float) : str :=
  match x with
  | S754_zero false => lit "0.000000"
  | S754_zero true => lit "-0.000000"
  | S754_infinity false => lit "inf"
  | S754_infinity true => lit "-inf"
  | S754_nan => lit "nan"
  | S754_finite s m e =>
      let (num, den) := ratio_of m e in
      let millionths := round_ratio (num * 10 ^ 6) den in
      let fraction := digit_chars (millionths mod 10 ^ 6) in
      (if s then [45%N] else []) ++ digit_chars (millionths / 10 ^ 6)
        ++ [46%N] ++ zeros (6 - Z.of_nat (List.length fraction)) ++ fraction
  end.

(** [math.isclose(a, b, rel_tol=1e-9, abs_tol=1e-9)] *)
Definition isclose (a b : spec_float) : bool :=
  let tolerance := of_str (lit "1e-9") in
  if SFeqb a b then true
  else if is_infinity a || is_infinity b then false
  else
    let diff := SFabs (SFsub prec emax b a) in
    SFleb diff (SFabs (SFmul prec emax tolerance b))
    || SFleb diff (SFabs (SFmul prec emax tolerance a))
    || SFleb diff tolerance.

(** [f"{x:.0%}"]: the float times one hundred, rounded to an integer. *)
Definition percent (x : spec_float) : str :=
  match SFmul prec emax x (binary_normalize prec emax 100 0 false) with
  | S754_zero false => lit "0%"
  | S754_zero true => lit "-0%"
  | S754_infinity false => lit "inf%"
  | S754_infinity true => lit "-inf%"
  | S754_nan => lit "nan%"
  | S754_finite s m e =>
      let (num, den) := ratio_of m e in
      (if s then [45%N] else []) ++ digit_chars (round_ratio num den)
        ++ lit "%"
  end.

#[export] Instance binary64 : PyFloat := {
  float := spec_float;
  float_of_int := of_int;
  float_add := SFadd prec emax;
  float_truediv := truediv;
  int_truediv := int_div;
  format_percent := percent;
  float_of_str := of_str;
  float_repr := repr;
  float_eqb := SFeqb;
  float_inf := S754_infinity false;
  float_neg_inf := S754_infinity true;
  float_nan := S754_nan
}.

End Binary64.

(** ** UTF-8

    [str(data, "utf-8")]: strict decoding, refusing overlong forms,
    surrogates and code points above 0x10FFFF. *)

Module Utf8.

Definition continuation (b : N) : bool := (128 <=? b) && (b <=? 191).

Definition checked (ok : bool) (c : N) (r : option str) : option str :=
  if ok then
    match r with
    | Some s => Some (c :: s)
    | None => None
    end
  else None.

Fixpoint decode_codes (data : list N) : option str :=
  match data with
  | [] => Some []
  | b0 :: rest =>
      if b0 <? 128 then checked true b0 (decode_codes rest)
      else if b0 <? 194 then None
      else if b0 <? 224 then
        match rest with
        | b1 :: rest' =>
            checked (continuation b1)
              ((b0 - 192) * 64 + (b1 - 128)) (decode_codes rest')
        | _ => None
        end
      else if b0 <? 240 then
        match rest with
        | b1 :: b2 :: rest' =>
            let c := ((b0 - 224) * 64 + (b1 - 128)) * 64 + (b2 - 128) in
            checked
              (continuation b1 && continuation b2 && (2048 <=? c)
                 && negb ((55296 <=? c) && (c <=? 57343)))
              c (decode_codes rest')
        | _ => None
        end
      else if b0 <? 245 then
        match rest with
        | b1 :: b2 :: b3 :: rest' =>
            let c :=
              (((b0 - 240) * 64 + (b1 - 128)) * 64 + (b2 - 128)) * 64
                + (b3 - 128) in
            checked
              (continuation b1 && continuation b2 && continuation b3
                 && (65536 <=? c) && (c <=? 1114111))
              c (decode_codes rest')
        | _ => None
        end
      else None
  end.

(** Where the decoder gives up and why: the position of the first byte of
    the sequence it refuses, the position after the last byte it names, and
    its reason. A sequence that the data cuts short is an "unexpected end of
    data" unless the bytes that are there already rule it out. *)
Definition invalid_start : str := lit "invalid start byte".
Definition invalid_continuation : str := lit "invalid continuation byte".
Definition unexpected_end : str := lit "unexpected end of data".

Fixpoint first_error (data : list N) (pos : N) : option (N * N * str) :=
  match data with
  | [] => None
  | b0 :: rest =>
      if b0 <? 128 then first_error rest (pos + 1)
      else if b0 <? 194 then Some (pos, pos + 1, invalid_start)
      else if b0 <? 224 then
        match rest with
        | [] => Some (pos, pos + 1, unexpected_end)
        | b1 :: rest' =>
            if continuation b1 then first_error rest' (pos + 2)
            else Some (pos, pos + 1, invalid_continuation)
        end
      else if b0 <? 240 then
        match rest with
        | [] => Some (pos, pos + 1, unexpected_end)
        | b1 :: rest1 =>
            if negb (continuation b1)
               || (if b1 <? 160 then b0 =? 224 else b0 =? 237)
            then Some (pos, pos + 1, invalid_continuation)
            else
              match rest1 with
              | [] => Some (pos, pos + 2, unexpected_end)
              | b2 :: rest' =>
                  if continuation b2 then first_error rest' (pos + 3)
                  else Some (pos, pos + 2, invalid_continuation)
              end
        end
      else if b0 <? 245 then
        match rest with
        | [] => Some (pos, pos + 1, unexpected_end)
        | b1 :: rest1 =>
            if negb (continuation b1)
               || (if b1 <? 144 then b0 =? 240 else b0 =? 244)
            then Some (pos, pos + 1, invalid_continuation)
            else
              match rest1 with
              | [] => Some (pos, pos + 2, unexpected_end)
              | b2 :: rest2 =>
                  if negb (continuation b2)
                  then Some (pos, pos + 2, invalid_continuation)
                  else
                    match rest2 with
                    | [] => Some (pos, pos + 3, unexpected_end)
                    | b3 :: rest' =>
                        if continuation b3 then first_error rest' (pos + 4)
                        else Some (pos, pos + 3, invalid_continuation)
                    end
              end
        end
      else Some (pos, pos + 1, invalid_start)
  end.

Definition decimal (n : N) : str := Json.uint_chars (N.to_uint n).

(** [str(e)] of the UnicodeDecodeError: one byte is named with its value, a
    longer sequence with its first and last position. *)
Definition decode_message (data : list N) : str :=
  match first_error data 0 with
  | None => []
  | Some (start, stop, reason) =>
      if stop =? start + 1 then
        lit "'utf-8' codec can't decode byte 0x"
          ++ [Json.hex_digit (nth (N.to_nat start) data 0 / 16);
              Json.hex_digit (nth (N.to_nat start) data 0 mod 16)]
          ++ lit " in position " ++ decimal start ++ lit ": " ++ reason
      else
        lit "'utf-8' codec can't decode bytes in position "
          ++ decimal start ++ lit "-" ++ decimal (stop - 1)
          ++ lit ": " ++ reason
  end.

Definition decode (data : bytes) : raises str :=
  match decode_codes (map Byte.to_N data) with
  | Some s => Ok s
  | None =>
      Err (mk_exn UnicodeDecodeError (decode_message (map Byte.to_N data)))
  end.

(** *** What the encoder refuses

    A [str] may hold surrogate code points, which UTF-8 cannot encode. The
    encoder names the first run of them. *)
Definition surrogate (c : N) : bool := (55296 <=? c) && (c <=? 57343).

Fixpoint surrogates_ahead (s : str) : N :=
  match s with
  | c :: rest => if surrogate c then 1 + surrogates_ahead rest else 0
  | [] => 0
  end.

Fixpoint first_surrogates (s : str) (pos : N) : option (N * N * N) :=
  match s with
  | [] => None
  | c :: rest =>
      if surrogate c then Some (c, pos, pos + 1 + surrogates_ahead rest)
      else first_surrogates rest (pos + 1)
  end.

(** [str(e)] of the UnicodeEncodeError of [s.encode("utf-8")], if any. *)
Definition encode_error (s : str) : option str :=
  match first_surrogates s 0 with
  | None => None
  | Some (c, start, stop) =>
      Some
        (if stop =? start + 1 then
           lit "'utf-8' codec can't encode character '" ++ Json.u_escape c
             ++ lit "' in position " ++ decimal start
             ++ lit ": surrogates not allowed"
         else
           lit "'utf-8' codec can't encode characters in position "
             ++ decimal start ++ lit "-" ++ decimal (stop - 1)
             ++ lit ": surrogates not allowed")
  end.

(** The bytes of an ASCII literal. *)
Definition ascii_bytes (s : string) : bytes :=
  map byte_of_ascii (list_ascii_of_string s).

End Utf8.

(** ** Libraries with prepared answers

    A closed instance of [Libraries] on which the script can be run: the
    document parsers and the completion endpoint answer what they are told
    to, UTF-8 and [json] are the models above, [st.progress] refuses a
    float that is neither in the interval from 0.0 to 1.0 nor close to one of
    its ends, and [st.code] refuses a text that UTF-8 cannot encode. *)

Module Prepared.
Import Binary64.

Record Answers := {
  pdf_answer : raises (list (raises str));
  docx_answer : raises (list (raises str));
  completion_answer : raises str
}.

(** [json.loads] within the limits of the interpreter: the decoder of
    CPython gives up with a RecursionError on a nesting deeper than the call
    stack allows and with a ValueError on an integer of more digits than
    [sys.get_int_max_str_digits()]; these two answers depend on the
    interpreter and are not among those of the model. The message of the
    JSONDecodeError is never read by the script. *)
Definition json_loads_model (s : str) : raises pyval :=
  match Json.loads s with
  | Some v => Ok v
  | None => Err (mk_exn JSONDecodeError (lit "Expecting value"))
  end.

(** [st.progress(value)] for a [float]: the value has to be between 0.0 and
    1.0 or close to one of the two. *)
Definition progress_model (value : spec_float) : option exn :=
  let zero := S754_zero false in
  let one := binary_normalize prec emax 1 0 false in
  if (SFleb zero value && SFleb value one)
     || isclose value zero || isclose value one
  then None
  else
    Some (mk_exn (LibraryError (lit "StreamlitAPIException"))
            (lit "Progress Value has invalid value [0.0, 1.0]: "
               ++ fixed6 value)).

(** [st.code(body)]: the text goes to the browser as UTF-8. *)
Definition code_model (body : str) : option exn :=
  match Utf8.encode_error body with
  | Some message => Some (mk_exn UnicodeEncodeError message)
  | None => None
  end.

Definition libraries (a : Answers) : Libraries := {|
  pdf_page := raises str;
  PdfReader_pages := fun _ => pdf_answer a;
  page_extract_text := fun page => page;
  docx_paragraph := raises str;
  Document_paragraphs := fun _ => docx_answer a;
  paragraph_text := fun paragraph => paragraph;
  decode_utf8 := Utf8.decode;
  ChatCompletion_create := fun _ _ _ _ _ => completion_answer a;
  json_loads := json_loads_model;
  json_dumps := Json.dumps;
  st_progress_raises := progress_model;
  st_code_raises := code_model
|}.

Definition no_parser : raises (list (raises str)) :=
  Err (mk_exn (LibraryError (lit "Exception")) (lit "not a document")).

(** The model answers [text]. *)
Definition answering (text : str) : Libraries :=
  libraries {| pdf_answer := no_parser; docx_answer := no_parser;
               completion_answer := Ok text |}.

(** A literal in which the apostrophe stands for the double quote. *)
Definition json (s : string) : str :=
  map (fun c => if c =? 39 then 34 else c) (lit s).

(** Widget values with the defaults of the sidebar. *)
Definition widgets (key : string) (mode : ExtractionMode)
    (file : option UploadedFile) (pasted template : string) : Widgets := {|
  api_key := lit key;
  model := lit "gpt-4-turbo-preview";
  extraction_mode := mode;
  temperature := of_str (lit "0.3");
  max_tokens := 1500;
  uploaded_file := file;
  text_input := lit pasted;
  schema_template := lit template
|}.

(** The parsers answer the given page and paragraph texts. *)
Definition parsing (pages paragraphs : list string) : Libraries :=
  libraries {| pdf_answer := Ok (map (fun t => Ok (lit t)) pages);
               docx_answer := Ok (map (fun t => Ok (lit t)) paragraphs);
               completion_answer := Ok (lit "{}") |}.

Definition file_of (mime : str) (content : string) : UploadedFile :=
  {| file_type := mime; getvalue := Utf8.ascii_bytes content |}.

(** An uploaded plain-text file. *)
Definition text_file (content : string) : UploadedFile :=
  {| file_type := text_mime; getvalue := Utf8.ascii_bytes content |}.

End Prepared.

(** ** Vocabulary of the properties *)

Section Vocabulary.
Context {F : PyFloat} {L : Libraries}.

(** The completion call of a run, in the trace and as the library answers
    it. *)
Definition completion_call (w : Widgets) (input_text : str) : call :=
  ChatCompletion_create_call (api_key w) (model w)
    (build_prompt w input_text) (temperature w) (max_tokens w).

Definition completion (w : Widgets) (input_text : str) : raises str :=
  ChatCompletion_create (api_key w) (model w)
    (build_prompt w input_text) (temperature w) (max_tokens w).

(** The two messages after the completion call. *)
Definition failed (e : exn) : call :=
  st_error (lit "Processing failed: " ++ exn_msg e).

Definition invalid_json : call :=
  st_error (lit "The AI returned invalid JSON. Below is the raw Response").

Definition is_extraction_call (c : call) : bool :=
  match c with
  | PdfReader_call _ | Document_call _ | decode_call _ => true
  | _ => false
  end.

Definition is_completion_call (c : call) : bool :=
  match c with
  | ChatCompletion_create_call _ _ _ _ _ => true
  | _ => false
  end.

Definition is_error (c : call) : bool :=
  match c with
  | st_error _ => true
  | _ => false
  end.

(** The elements that show a structured result or the raw answer. *)
Definition is_result (c : call) : bool :=
  match c with
  | st_success _ | st_subheader _ | st_json _ | st_metric _ _
  | st_progress _ | st_download_button _ _ _ | st_code _ => true
  | _ => false
  end.

Definition is_download (c : call) : bool :=
  match c with
  | st_download_button _ _ _ => true
  | _ => false
  end.

Definition is_code (c : call) : bool :=
  match c with
  | st_code _ => true
  | _ => false
  end.

(** The same widget values with another content of the text area. *)
Definition with_text_input (w : Widgets) (pasted : str) : Widgets := {|
  api_key := api_key w;
  model := model w;
  extraction_mode := extraction_mode w;
  temperature := temperature w;
  max_tokens := max_tokens w;
  uploaded_file := uploaded_file w;
  text_input := pasted;
  schema_template := schema_template w
|}.

(** [int], [float] and [bool] are the values [sum] can add up. *)
Definition is_number (v : pyval) : bool :=
  match v with
  | PInt _ | PFloat _ | PBool _ => true
  | _ => false
  end.

(** The numbers of JSON: [int] and [float]. *)
Definition is_json_number (v : pyval) : bool :=
  match v with
  | PInt _ | PFloat _ => true
  | _ => false
  end.

(** A call that shows nothing and does not reach the completion endpoint. *)
Definition quiet (c : call) : Prop :=
  is_error c = false /\ is_result c = false /\ is_completion_call c = false.

(** The values that [find_confidences] collects, without the accumulator:
    the walk goes through mappings and sequences, takes the value of every
    key that contains "confidence", whatever the value is, and does not look
    inside such a value. *)
Fixpoint walk (data : pyval) : list pyval :=
  match data with
  | PDict items =>
      flat_map (fun kv => if confidence_key (fst kv) then [snd kv]
                          else walk (snd kv)) items
  | PList items => flat_map walk items
  | _ => []
  end.

(** The collection as the specification words it: every number of the whole
    tree whose own key contains "confidence", also below such a key. *)
Fixpoint spec_confidences (data : pyval) : list pyval :=
  match data with
  | PDict items =>
      flat_map (fun kv =>
                  (if confidence_key (fst kv) && is_json_number (snd kv)
                   then [snd kv] else [])
                  ++ spec_confidences (snd kv)) items
  | PList items => flat_map spec_confidences items
  | _ => []
  end.

(** [v] is the value of a key containing "confidence" somewhere in the
    tree. *)
Inductive under_confidence_key (v : pyval) : pyval -> Prop :=
| under_here (items : list (str * pyval)) (k : str) :
    In (k, v) items -> confidence_key k = true ->
    under_confidence_key v (PDict items)
| under_in_dict (items : list (str * pyval)) (k : str) (child : pyval) :
    In (k, child) items -> under_confidence_key v child ->
    under_confidence_key v (PDict items)
| under_in_list (items : list pyval) (child : pyval) :
    In child items -> under_confidence_key v child ->
    under_confidence_key v (PList items).

End Vocabulary.

(** ** Vocabulary of the round trip through [json] *)

Section JsonVocabulary.
Context {F : PyFloat}.

(** A Unicode scalar value: a code point up to 0x10FFFF that is not a
    surrogate. A JSON text is made of these. *)
Definition scalar (c : N) : bool :=
  (c <? 55296) || ((57343 <? c) && (c <? 1114112)).









(** The characters a JSON value can start with. *)
Definition is_start (c : N) : bool :=
  (c =? 34) || (c =? 123) || (c =? 91) || (c =? 110) || (c =? 116)
  || (c =? 102) || (c =? 45) || Json.is_digit c || (c =? 78) || (c =? 73).

End JsonVocabulary.

(** ** Vocabulary of the run-level properties *)

Section RunVocabulary.
Context {F : PyFloat} {L : Libraries}.

(** The download button of line 199, for a parsed value. *)
Definition download (json_data : pyval) : call :=
  st_download_button (128190 :: lit " Download JSON")
    (json_dumps json_data) (lit "extracted_data.json").

(** What lines 163-175 show for a parsed value: the success message, the
    value, and the field count when the value is a [dict]. *)
Definition shown (json_data : pyval) : list call :=
  [st_success (9989 :: lit " Extraction complete!");
   st_subheader (lit "Structured Data");
   st_json json_data;
   st_subheader (lit "Analysis")]
  ++ match json_data with
     | PDict items => [st_metric (lit "Total Fields") (PInt (len items))]
     | _ => []
     end.

(** The metric of line 195. *)
Definition average_metric (avg_conf : float) : call :=
  st_metric (lit "Average Confidence") (PStr (format_percent avg_conf)).

(** The ways a run can end after its completion call. *)
Inductive ending : list call -> Prop :=
| ends_failed (e : exn) : ending [failed e]
| ends_raw (result : str) : ending [invalid_json; st_code result]
| ends_failed_shown (v : pyval) (e : exn) : ending (shown v ++ [failed e])
| ends_download (v : pyval) : ending (shown v ++ [download v])
| ends_failed_metric (v : pyval) (avg_conf : float) (e : exn) :
    ending (shown v ++ [average_metric avg_conf; failed e])
| ends_raw_metric (v : pyval) (avg_conf : float) (result : str) :
    ending (shown v ++ [average_metric avg_conf; invalid_json; st_code result])
| ends_progress (v : pyval) (avg_conf : float) :
    ending (shown v ++ [average_metric avg_conf; st_progress avg_conf;
                        download v])
| ends_refused (result : str) (e : exn) :
    st_code_raises result = Some e ->
    ending [invalid_json; failed e]
| ends_refused_metric (v : pyval) (avg_conf : float) (result : str)
    (e : exn) :
    st_code_raises result = Some e ->
    ending (shown v ++ [average_metric avg_conf; invalid_json; failed e]).

(** [bool] is a subclass of [int]: the values that [sum] adds as integers. *)
Definition is_integer (v : pyval) : bool :=
  match v with
  | PInt _ | PBool _ => true
  | _ => false
  end.

Definition int_value (v : pyval) : Z :=
  match v with
  | PInt z => z
  | PBool b => Z.b2z b
  | _ => 0%Z
  end.

(** [d.get(k)] on the pairs of a [dict]. *)
Fixpoint get (k : str) (items : list (str * pyval)) : option pyval :=
  match items with
  | [] => None
  | (k', v) :: rest => if PyStr.eqb k' k then Some v else get k rest
  end.

(** The last pair with the key [k] in a list of pairs. *)
Fixpoint last_value (k : str) (pairs : list (str * pyval)) : option pyval :=
  match pairs with
  | [] => None
  | (k', v) :: rest =>
      match last_value k rest with
      | Some v' => Some v'
      | None => if PyStr.eqb k' k then Some v else None
      end
  end.

(** A printable ASCII character or a line break. *)
Definition printable (c : N) : bool :=
  ((32 <=? c) && (c <=? 126)) || (c =? 10).

End RunVocabulary.

(** * Properties *)

(** ** Strings *)

Lemma startswith_app (p s : str) : startswith p (p ++ s) = true.
Proof.
  induction p as [|a p IH]; simpl; [reflexivity|].
  now rewrite N.eqb_refl, IH.
Qed.

Lemma startswith_spec (p s : str) :
  startswith p s = true <-> exists post, s = p ++ post.
Proof.
  split.
  - revert s. induction p as [|a p IH]; intros s H.
    + now exists s.
    + destruct s as [|b s]; simpl in H; [discriminate|].
      apply andb_true_iff in H. destruct H as [Hab H].
      apply N.eqb_eq in Hab. subst b.
      destruct (IH _ H) as [post ->]. now exists post.
  - intros [post ->]. apply startswith_app.
Qed.

Lemma contains_spec (needle hay : str) :
  contains needle hay = true <-> exists pre post, hay = pre ++ needle ++ post.
Proof.
  split.
  - induction hay as [|c hay IH]; simpl; intros H.
    + apply orb_true_iff in H. destruct H as [H|H]; [|discriminate].
      apply startswith_spec in H. destruct H as [post H].
      exists [], post. exact H.
    + apply orb_true_iff in H. destruct H as [H|H].
      * apply startswith_spec in H. destruct H as [post H].
        exists [], post. exact H.
      * destruct (IH H) as (pre & post & ->).
        now exists (c :: pre), post.
  - intros (pre & post & ->).
    induction pre as [|c pre IH]; simpl.
    + pose proof (startswith_app needle post) as H.
      destruct (needle ++ post); simpl; now rewrite H.
    + rewrite IH. apply orb_true_r.
Qed.

Lemma eqb_eq (a b : str) : PyStr.eqb a b = true <-> a = b.
Proof.
  unfold PyStr.eqb. destruct (list_eq_dec N.eq_dec a b); split; congruence.
Qed.

Lemma eqb_refl (a : str) : PyStr.eqb a a = true.
Proof. now apply eqb_eq. Qed.

Lemma truthy_false (s : str) : truthy s = false <-> s = [].
Proof. destruct s; simpl; split; congruence. Qed.

Lemma contains_here (needle post : str) :
  contains needle (needle ++ post) = true.
Proof. apply contains_spec. now exists [], post. Qed.

Lemma contains_skip (needle pre hay : str) :
  contains needle hay = true -> contains needle (pre ++ hay) = true.
Proof.
  intros H. apply contains_spec in H. destruct H as (a & b & ->).
  apply contains_spec. exists (pre ++ a), b. now rewrite <- app_assoc.
Qed.

(** ** The credential check *)

Section Credential.
Context {F : PyFloat} {L : Libraries}.

(** C4: with an empty credential the run stops right after the error
    "Please enter your OpenAI API key": the only call of the run is that
    error, so neither a document parser, nor the decoder, nor the completion
    endpoint is reached, whatever document was uploaded. *)
Theorem missing_credential_short_circuits (w : Widgets) :
  api_key w = [] ->
  process w = (Stopped, [st_error (lit "Please enter your OpenAI API key")])
  /\ forall c, In c (snd (process w)) ->
       is_extraction_call c = false /\ is_completion_call c = false.
Proof.
  intros Hkey.
  assert (Hrun : process w
            = (Stopped, [st_error (lit "Please enter your OpenAI API key")])).
  { unfold process. rewrite Hkey. reflexivity. }
  split; [exact Hrun|].
  rewrite Hrun. intros c [<-|[]]. now split.
Qed.

End Credential.

Lemma missing_credential_witness :
  let w := Prepared.widgets "" Automatic
             (Some (Prepared.text_file "Invoice 42")) "" "" in
  process (L := Prepared.answering (lit "{}")) w
    = (Stopped, [st_error (lit "Please enter your OpenAI API key")])
  /\ forall c, In c (snd (process (L := Prepared.answering (lit "{}")) w)) ->
       is_extraction_call c = false /\ is_completion_call c = false.
Proof.
  exact (missing_credential_short_circuits (L := Prepared.answering (lit "{}"))
           (Prepared.widgets "" Automatic
              (Some (Prepared.text_file "Invoice 42")) "" "")
           eq_refl).
Defined.

(** ** The prompt *)

Section Prompt.
Context {F : PyFloat} {L : Libraries}.

Lemma schema_prompt_shape (template input_text : str) :
  schema_prompt (Some template) input_text =
    (newline ++ indent
       ++ lit "Convert this document into JSON following exactly this schema:"
       ++ newline ++ indent)
    ++ template
    ++ (newline ++ indent ++ newline ++ indent ++ lit "Document content:"
          ++ newline ++ indent)
    ++ input_text
    ++ (newline ++ indent ++ newline ++ indent ++ lit "Rules:"
          ++ newline ++ indent ++ lit "1. Include all available data"
          ++ newline ++ indent ++ lit "2. Mark missing fields as null"
          ++ newline ++ indent)
    ++ confidence_rule
    ++ (newline ++ indent)
    ++ json_only_rule
    ++ newline ++ indent.
Proof.
  unfold schema_prompt, block, format_schema. cbn [flat_map].
  rewrite <- !app_assoc. reflexivity.
Qed.

(** C6: in schema-guided mode the prompt contains the schema text as it was
    typed, the line of rule 3, which reads 3. Add "_confidence" scores (0-1)
    for each field, with the double quotes around the key, and the line of
    rule 4, 4. Return ONLY valid JSON, for every input text and every schema
    text. The character 34 is the double quote. *)
Theorem schema_guided_prompt_contents (w : Widgets) (input_text : str) :
  extraction_mode w = SchemaGuided ->
  (exists pre post,
     build_prompt w input_text = pre ++ schema_template w ++ post)
  /\ contains
       (lit "3. Add " ++ [34] ++ lit "_confidence" ++ [34]
          ++ lit " scores (0-1) for each field")
       (build_prompt w input_text) = true
  /\ contains (lit "4. Return ONLY valid JSON") (build_prompt w input_text)
     = true.
Proof.
  intros Hmode. unfold build_prompt, schema. rewrite Hmode.
  rewrite schema_prompt_shape. split; [|split].
  - eexists. eexists. reflexivity.
  - do 5 apply contains_skip.
    exact (contains_here confidence_rule _).
  - do 7 apply contains_skip.
    exact (contains_here json_only_rule _).
Qed.

End Prompt.

Lemma schema_guided_prompt_witness :
  let w := Prepared.widgets "sk-test" SchemaGuided None "Alice is 30."
             "{ name: string }" in
  (exists pre post,
     build_prompt w (text_input w) = pre ++ schema_template w ++ post)
  /\ contains
       (lit "3. Add " ++ [34] ++ lit "_confidence" ++ [34]
          ++ lit " scores (0-1) for each field")
       (build_prompt w (text_input w)) = true
  /\ contains (lit "4. Return ONLY valid JSON")
       (build_prompt w (text_input w)) = true.
Proof.
  exact (schema_guided_prompt_contents
           (Prepared.widgets "sk-test" SchemaGuided None "Alice is 30."
              "{ name: string }")
           (lit "Alice is 30.") eq_refl).
Defined.

(** ** Text extraction *)

Section Extraction.
Context {F : PyFloat} {L : Libraries}.


Lemma mime_types_differ :
  PyStr.eqb docx_mime pdf_mime = false
  /\ PyStr.eqb text_mime pdf_mime = false
  /\ PyStr.eqb text_mime docx_mime = false.
Proof. repeat split; reflexivity. Qed.


End Extraction.


(** ** The choice of the input text *)

Section InputSelection.
Context {F : PyFloat} {L : Libraries}.

Lemma extract_text_quiet (file : UploadedFile) (text : str) (t : list call) :
  extract_text file = (Normal (Some text), t) -> Forall quiet t.
Proof.
  unfold extract_text.
  destruct (PyStr.eqb (file_type file) pdf_mime).
  { destruct (PdfReader_pages (getvalue file)) as [pages|e]; cbn.
    - destruct (comprehension page_extract_text pages); cbn;
        intros H; inversion H; subst; repeat constructor.
    - intros H; inversion H. }
  destruct (PyStr.eqb (file_type file) docx_mime).
  { destruct (Document_paragraphs (getvalue file)) as [paragraphs|e]; cbn.
    - destruct (comprehension paragraph_text paragraphs); cbn;
        intros H; inversion H; subst; repeat constructor.
    - intros H; inversion H. }
  destruct (PyStr.eqb (file_type file) text_mime).
  { destruct (decode_utf8 (getvalue file)); cbn;
      intros H; inversion H; subst; repeat constructor. }
  cbn. intros H; inversion H.
Qed.

(** C10: with a credential and an uploaded document whose extraction gives
    the empty string, the run stops after the extraction: no error message,
    no result element and no completion call. And when a document is
    uploaded the run is the same whatever the text area holds. *)
Theorem empty_extraction_halts_silently (w : Widgets) (file : UploadedFile) :
  truthy (api_key w) = true ->
  uploaded_file w = Some file ->
  (forall t, extract_text file = (Normal (Some []), t) ->
     process w = (Stopped, t) /\ Forall quiet t)
  /\ (forall pasted, process (with_text_input w pasted) = process w).
Proof.
  intros Hkey Hfile. split.
  - intros t Hextract. split; [|exact (extract_text_quiet _ Hextract)].
    unfold process, get_input_text. rewrite Hkey, Hfile, Hextract.
    cbn. now rewrite app_nil_r.
  - intros pasted. unfold process, get_input_text. cbn [with_text_input
      api_key uploaded_file text_input]. rewrite Hfile. reflexivity.
Qed.

End InputSelection.

Lemma empty_extraction_witness :
  let w := Prepared.widgets "sk-test" Automatic
             (Some (Prepared.text_file "")) "Pasted text" "" in
  (process (L := Prepared.answering (lit "{}")) w = (Stopped, [decode_call []])
   /\ Forall quiet [decode_call (F := Binary64.binary64) []])
  /\ (forall pasted,
        process (L := Prepared.answering (lit "{}")) (with_text_input w pasted)
        = process (L := Prepared.answering (lit "{}")) w).
Proof.
  pose proof (empty_extraction_halts_silently (L := Prepared.answering (lit "{}"))
                (Prepared.widgets "sk-test" Automatic
                   (Some (Prepared.text_file "")) "Pasted text" "")
                eq_refl eq_refl) as [Hstop Hsame].
  split; [exact (Hstop [decode_call []] eq_refl) | exact Hsame].
Defined.

(** ** Induction on values *)

Section ValueInduction.
Context {F : PyFloat}.
Variable P : pyval -> Prop.
Hypothesis P_none : P PNone.
Hypothesis P_bool : forall b, P (PBool b).
Hypothesis P_int : forall z, P (PInt z).
Hypothesis P_float : forall f, P (PFloat f).
Hypothesis P_str : forall s, P (PStr s).
Hypothesis P_list : forall items, Forall P items -> P (PList items).
Hypothesis P_dict :
  forall items, Forall (fun kv => P (snd kv)) items -> P (PDict items).

Lemma pyval_induction : forall v, P v.
Proof.
  fix IH 1. intros [| b | z | f | s | items | items].
  - exact P_none.
  - apply P_bool.
  - apply P_int.
  - apply P_float.
  - apply P_str.
  - apply P_list. induction items as [|v items IHitems]; constructor.
    + apply IH.
    + exact IHitems.
  - apply P_dict. induction items as [|[k v] items IHitems]; constructor.
    + apply IH.
    + exact IHitems.
Qed.

End ValueInduction.

(** ** The confidence statistic *)

Section Confidence.
Context {F : PyFloat}.

Lemma find_confidences_dict (items : list (str * pyval))
    (confidences : list pyval) :
  find_confidences (PDict items) confidences =
    fold_left (fun acc kv =>
                 if confidence_key (fst kv) then acc ++ [snd kv]
                 else find_confidences (snd kv) acc) items confidences.
Proof.
  simpl. revert confidences.
  induction items as [|[k v] items IH]; intros confidences; simpl.
  - reflexivity.
  - apply IH.
Qed.

Lemma find_confidences_list (items : list pyval) (confidences : list pyval) :
  find_confidences (PList items) confidences =
    fold_left (fun acc item => find_confidences item acc) items confidences.
Proof.
  simpl. revert confidences.
  induction items as [|v items IH]; intros confidences; simpl.
  - reflexivity.
  - apply IH.
Qed.

(** The accumulator only grows, by the values of [walk]. *)
Lemma find_confidences_walk (data : pyval) :
  forall confidences,
    find_confidences data confidences = confidences ++ walk data.
Proof.
  induction data as [| b | z | f | s | items IH | items IH]
    using pyval_induction; intros confidences;
    try (simpl; now rewrite app_nil_r).
  - rewrite find_confidences_list. cbn [walk].
    revert confidences.
    induction IH as [|v items Hv _ IHitems]; intros confidences; simpl.
    + now rewrite app_nil_r.
    + rewrite Hv, IHitems. now rewrite app_assoc.
  - rewrite find_confidences_dict. cbn [walk].
    revert confidences.
    induction IH as [|[k v] items Hv _ IHitems]; intros confidences; simpl.
    + now rewrite app_nil_r.
    + simpl in Hv. destruct (confidence_key k).
      * rewrite IHitems. now rewrite <- app_assoc.
      * rewrite Hv, IHitems. now rewrite app_assoc.
Qed.

Lemma find_confidences_is_walk (data : pyval) :
  find_confidences data [] = walk data.
Proof. apply find_confidences_walk. Qed.

(** A key of the top level that contains "confidence" puts its value in the
    collection. *)
Lemma gate_gives_value (items : list (str * pyval)) :
  existsb confidence_key (map fst items) = true ->
  walk (PDict items) <> [].
Proof.
  cbn [walk]. induction items as [|[k v] items IH]; simpl; [discriminate|].
  destruct (confidence_key k); simpl.
  - discriminate.
  - intros H Hnil. apply app_eq_nil in Hnil. tauto.
Qed.

(** C1, as the code has it: for a parsed object the statistic exists exactly
    when a key of the top level contains "confidence" and the averaging
    succeeds; it is then the sum of the collected values divided by their
    number, where the collection is [walk]: the values of the keys containing
    "confidence" reached through mappings and sequences, of any type, without
    looking inside such a value. Without such a top-level key, and only then,
    the statistic is absent without an error. *)
Theorem average_confidence_of_object (items : list (str * pyval)) :
  (average_confidence (PDict items) = Ok None
   <-> existsb confidence_key (map fst items) = false)
  /\ (forall avg_conf,
        average_confidence (PDict items) = Ok (Some avg_conf)
        <-> existsb confidence_key (map fst items) = true
            /\ walk (PDict items) <> []
            /\ exists total,
                 sum (walk (PDict items)) = Ok total
                 /\ truediv total (len (walk (PDict items))) = Ok avg_conf).
Proof.
  unfold average_confidence. cbn [keys].
  rewrite find_confidences_is_walk.
  destruct (existsb confidence_key (map fst items)) eqn:Hgate.
  - pose proof (gate_gives_value items Hgate) as Hne.
    destruct (walk (PDict items)) as [|v l] eqn:Hwalk; [congruence|].
    unfold average.
    destruct (sum (v :: l)) as [total|e] eqn:Hsum.
    + destruct (truediv total (len (v :: l))) as [q|e] eqn:Hdiv.
      * split; [split; discriminate|].
        intros avg_conf. split.
        -- intros H. inversion H; subst. repeat split; try discriminate.
           now exists total.
        -- intros (_ & _ & total' & Htotal & Hq).
           inversion Htotal; subst. congruence.
      * split; [split; discriminate|].
        intros avg_conf. split; [discriminate|].
        intros (_ & _ & total' & Htotal & Hq).
        inversion Htotal; subst. congruence.
    + split; [split; discriminate|].
      intros avg_conf. split; [discriminate|].
      intros (_ & _ & total' & Htotal & _). discriminate.
  - split; [split; reflexivity|].
    intros avg_conf. split; [discriminate|].
    intros (H & _). discriminate.
Qed.

End Confidence.

(** Where the code departs from C1 as it is worded. A number under a key
    containing "confidence" below the top level is not averaged when no
    top-level key contains the word: the statistic is absent. And a number
    below a confidence-named key is not reached: the mapping above it is
    collected instead, and the sum raises. *)
Lemma nested_confidence_is_not_averaged :
  let nine_tenths : pyval (F := Binary64.binary64) :=
    PFloat (float_of_str (lit "0.9")) in
  let v := PDict [(lit "result", PDict [(lit "score_confidence", nine_tenths)])]
  in
  let v' := PDict [(lit "score_confidence",
                    PDict [(lit "model_confidence", nine_tenths)])] in
  (Json.loads (Prepared.json "{'result': {'score_confidence': 0.9}}") = Some v
   /\ spec_confidences v = [nine_tenths]
   /\ average_confidence v = Ok None)
  /\ (Json.loads
        (Prepared.json "{'score_confidence': {'model_confidence': 0.9}}")
      = Some v'
      /\ spec_confidences v' = [nine_tenths]
      /\ average_confidence v' =
           Err (mk_exn TypeError
                  (lit "unsupported operand type(s) for +: 'int' and 'dict'"))).
Proof. repeat split. Qed.

(** ** The run after the input text is chosen *)

Section Interpretation.
Context {F : PyFloat} {L : Libraries}.

Lemma process_with_input (w : Widgets) (input_text : str) (t0 : list call) :
  truthy (api_key w) = true ->
  get_input_text w = (Normal input_text, t0) ->
  process w = (fst (analyze w input_text), t0 ++ snd (analyze w input_text)).
Proof.
  intros Hkey Hinput. unfold process. rewrite Hkey, Hinput. cbn.
  now destruct (analyze w input_text).
Qed.

Lemma analyze_with_answer (w : Widgets) (input_text result : str) :
  completion w input_text = Ok result ->
  analyze w input_text =
    match interpret result with
    | (Raised e, t) =>
        (Normal tt, completion_call w input_text :: t ++ [failed e])
    | (r, t) => (r, completion_call w input_text :: t)
    end.
Proof.
  unfold completion. intros Hanswer. unfold analyze. rewrite Hanswer.
  unfold completion_call, failed.
  cbv [bind lift emit ret try_except Exception].
  destruct (interpret result) as [[[]|e|] t]; cbn; reflexivity.
Qed.

Lemma process_with_answer (w : Widgets) (input_text result : str)
    (t0 : list call) :
  truthy (api_key w) = true ->
  get_input_text w = (Normal input_text, t0) ->
  completion w input_text = Ok result ->
  process w =
    match interpret result with
    | (Raised e, t) =>
        (Normal tt, t0 ++ completion_call w input_text :: t ++ [failed e])
    | (r, t) => (r, t0 ++ completion_call w input_text :: t)
    end.
Proof.
  intros Hkey Hinput Hanswer.
  rewrite (process_with_input w Hkey Hinput).
  rewrite (analyze_with_answer w input_text Hanswer).
  now destruct (interpret result) as [[[]|e|] t].
Qed.

(** C5, as the code has it: when [json.loads] raises on the answer of the
    model, the run ends normally in one of three ways. For a JSONDecodeError
    it shows "The AI returned invalid JSON" and then, when [st.code] takes
    the text, the answer itself in a code block, unchanged, and nothing else.
    When [st.code] raises on the text, the run shows "Processing failed: ..."
    after the first message and not the answer. And when [json.loads] raises
    any other exception, the run shows "Processing failed: ..." alone. *)
Theorem invalid_json_outcomes (w : Widgets) (input_text result : str)
    (t0 : list call) (e : exn) :
  truthy (api_key w) = true ->
  get_input_text w = (Normal input_text, t0) ->
  completion w input_text = Ok result ->
  json_loads result = Err e ->
  process w =
    (Normal tt,
     t0 ++ completion_call w input_text ::
       if is_JSONDecodeError e then
         invalid_json ::
           match st_code_raises result with
           | None => [st_code result]
           | Some refusal => [failed refusal]
           end
       else [failed e]).
Proof.
  intros Hkey Hinput Hanswer Hloads.
  rewrite (process_with_answer w Hkey Hinput Hanswer).
  unfold interpret, show_result. rewrite Hloads. cbn.
  destruct (is_JSONDecodeError e); cbn; [|reflexivity].
  destruct (st_code_raises result); reflexivity.
Qed.

(** C2, where the code departs from it: an answer that parses to anything
    but an object (an array, a string, a number, a boolean, null) is shown,
    and then [json_data.keys()] raises AttributeError; the run ends with
    "Processing failed: ..." and without the download button. *)
Theorem non_object_answer_fails (w : Widgets) (input_text result : str)
    (t0 : list call) (json_data : pyval) :
  truthy (api_key w) = true ->
  get_input_text w = (Normal input_text, t0) ->
  completion w input_text = Ok result ->
  json_loads result = Ok json_data ->
  isinstance_dict json_data = false ->
  process w =
    (Normal tt,
     t0 ++ [completion_call w input_text;
            st_success (9989 :: lit " Extraction complete!");
            st_subheader (lit "Structured Data");
            st_json json_data;
            st_subheader (lit "Analysis");
            st_error (lit "Processing failed: '" ++ type_name json_data
                        ++ lit "' object has no attribute 'keys'")]).
Proof.
  intros Hkey Hinput Hanswer Hloads Hshape.
  rewrite (process_with_answer w Hkey Hinput Hanswer).
  unfold interpret, show_result, confidence_analysis, average_confidence.
  rewrite Hloads.
  destruct json_data; try discriminate; cbn; now rewrite <- ?app_assoc.
Qed.

(** C3, as the code has it: in schema-guided mode the schema text is not
    looked at before the call. With a credential and an input text the
    completion endpoint is called with the prompt built around the schema
    text as it is, empty or not. *)
Theorem schema_is_sent_unchecked (w : Widgets) (input_text : str)
    (t0 : list call) :
  truthy (api_key w) = true ->
  get_input_text w = (Normal input_text, t0) ->
  extraction_mode w = SchemaGuided ->
  exists r t1,
    process w =
      (r, t0 ++ ChatCompletion_create_call (api_key w) (model w)
                  (schema_prompt (Some (schema_template w)) input_text)
                  (temperature w) (max_tokens w) :: t1).
Proof.
  intros Hkey Hinput Hmode.
  rewrite (process_with_input w Hkey Hinput).
  unfold analyze, build_prompt, schema. rewrite Hmode.
  match goal with
  | |- context [lift ?c] => destruct c as [result|e]
  end.
  - cbn. destruct (interpret result) as [[[]|e|] t]; cbn;
      eexists; eexists; reflexivity.
  - cbn. eexists; eexists; reflexivity.
Qed.

End Interpretation.

Lemma prose_is_not_json :
  Json.loads (F := Binary64.binary64) (lit "Sure, here's your JSON: {...}")
    = None.
Proof. reflexivity. Qed.

Lemma invalid_json_witness :
  let text := lit "Sure, here's your JSON: {...}" in
  let w := Prepared.widgets "sk-test" Automatic None "Alice is 30." "" in
  process (L := Prepared.answering text) w =
    (Normal tt,
     [completion_call w (lit "Alice is 30.");
      invalid_json; st_code text]).
Proof.
  exact (invalid_json_outcomes
           (L := Prepared.answering (lit "Sure, here's your JSON: {...}"))
           (Prepared.widgets "sk-test" Automatic None "Alice is 30." "")
           (input_text := lit "Alice is 30.")
           (result := lit "Sure, here's your JSON: {...}")
           (t0 := [])
           (e := mk_exn JSONDecodeError (lit "Expecting value"))
           eq_refl eq_refl eq_refl eq_refl).
Defined.

(** Where the code departs from C5 as it is worded: an answer that is not
    JSON and holds a lone surrogate, which [st.code] cannot send. The run
    shows the message for invalid JSON and then "Processing failed: ...";
    the answer itself is not shown. *)
Lemma unencodable_answer_is_not_shown :
  let text := lit "Sure " ++ [56320] ++ lit " thing" in
  let w := Prepared.widgets "sk-test" Automatic None "Alice is 30." "" in
  Json.loads (F := Binary64.binary64) text = None
  /\ (exists refusal,
        st_code_raises (Libraries := Prepared.answering text) text
        = Some refusal
        /\ process (L := Prepared.answering text) w =
             (Normal tt,
              [completion_call w (lit "Alice is 30."); invalid_json;
               failed refusal]))
  /\ existsb is_code (snd (process (L := Prepared.answering text) w))
     = false.
Proof.
  split; [reflexivity|]. split; [|reflexivity].
  eexists. split; reflexivity.
Qed.

Lemma non_object_answer_witness :
  let text := lit "[1]" in
  let w := Prepared.widgets "sk-test" Automatic None "Alice is 30." "" in
  process (L := Prepared.answering text) w =
    (Normal tt,
     [completion_call w (lit "Alice is 30.");
      st_success (9989 :: lit " Extraction complete!");
      st_subheader (lit "Structured Data");
      st_json (PList [PInt 1]);
      st_subheader (lit "Analysis");
      st_error (lit "Processing failed: 'list' object has no attribute 'keys'")]).
Proof.
  exact (non_object_answer_fails
           (L := Prepared.answering (lit "[1]"))
           (Prepared.widgets "sk-test" Automatic None "Alice is 30." "")
           (input_text := lit "Alice is 30.")
           (result := lit "[1]")
           (t0 := [])
           (json_data := PList [PInt 1])
           eq_refl eq_refl eq_refl eq_refl eq_refl).
Defined.

(** Where the code departs from C3 as it is worded: in schema-guided mode
    with an empty schema text the completion endpoint is called. *)
Lemma empty_schema_is_sent :
  let w := Prepared.widgets "sk-test" SchemaGuided None "Alice is 30." "" in
  extraction_mode w = SchemaGuided
  /\ schema_template w = []
  /\ existsb is_completion_call
       (snd (process (L := Prepared.answering (lit "{}")) w)) = true.
Proof. repeat split. Qed.

Lemma schema_is_sent_unchecked_witness :
  let w := Prepared.widgets "sk-test" SchemaGuided None "Alice is 30." "" in
  exists r t1,
    process (L := Prepared.answering (lit "{}")) w =
      (r, [] ++ ChatCompletion_create_call (api_key w) (model w)
                  (schema_prompt (Some []) (lit "Alice is 30."))
                  (temperature w) (max_tokens w) :: t1).
Proof.
  exact (schema_is_sent_unchecked
           (L := Prepared.answering (lit "{}"))
           (Prepared.widgets "sk-test" SchemaGuided None "Alice is 30." "")
           (input_text := lit "Alice is 30.") (t0 := [])
           eq_refl eq_refl eq_refl).
Defined.

(** ** Values that [sum] cannot add *)

Section NonNumbers.
Context {F : PyFloat} {L : Libraries}.

Lemma to_float_error (z : Z) (e : exn) :
  to_float z = Err e -> is_JSONDecodeError e = false.
Proof.
  unfold to_float. destruct (float_of_int z); intros H; inversion H.
  reflexivity.
Qed.

Lemma add_error (total : number) (v : pyval) (e : exn) :
  add total v = Err e -> is_JSONDecodeError e = false.
Proof.
  destruct total as [a|x], v as [| b | z | y | s | items | items]; simpl;
    try (intros H; inversion H; reflexivity);
    match goal with
    | |- context [to_float ?n] =>
        destruct (to_float n) eqn:E; intros H; inversion H; subst;
        exact (to_float_error _ E)
    end.
Qed.

Lemma add_non_number (total : number) (v : pyval) :
  is_number v = false -> exists e, add total v = Err e.
Proof.
  destruct total, v; simpl; try discriminate; intros _; eexists; reflexivity.
Qed.

Lemma sum_from_error (values : list pyval) :
  forall total e,
    sum_from total values = Err e -> is_JSONDecodeError e = false.
Proof.
  induction values as [|v values IH]; intros total e; simpl.
  - discriminate.
  - destruct (add total v) as [total'|e'] eqn:E.
    + apply IH.
    + intros H. inversion H; subst. exact (add_error _ _ E).
Qed.

Lemma sum_from_non_number (values : list pyval) (u : pyval) :
  In u values -> is_number u = false ->
  forall total, exists e, sum_from total values = Err e.
Proof.
  intros Hin Hu. induction values as [|v values IH]; [contradiction|].
  intros total. simpl.
  destruct (add total v) as [total'|e] eqn:E.
  - destruct Hin as [->|Hin].
    + destruct (add_non_number total u Hu) as [e He]. congruence.
    + now apply IH.
  - now exists e.
Qed.

Lemma truediv_error (total : number) (n : Z) (e : exn) :
  truediv total n = Err e -> is_JSONDecodeError e = false.
Proof.
  unfold truediv. destruct (n =? 0)%Z.
  { intros H; inversion H; reflexivity. }
  destruct total as [a|x].
  - destruct (int_truediv a n); intros H; inversion H; reflexivity.
  - destruct (to_float n) eqn:E.
    + destruct (float_truediv x a); intros H; inversion H; reflexivity.
    + intros H; inversion H; subst. exact (to_float_error _ E).
Qed.

Lemma average_error (values : list pyval) (e : exn) :
  average values = Err e -> is_JSONDecodeError e = false.
Proof.
  unfold average, sum. destruct (sum_from (NInt 0) values) eqn:E.
  - apply truediv_error.
  - intros H; inversion H; subst. exact (sum_from_error _ _ E).
Qed.

Lemma average_non_number (values : list pyval) (u : pyval) :
  In u values -> is_number u = false -> exists e, average values = Err e.
Proof.
  intros Hin Hu. unfold average, sum.
  destruct (sum_from_non_number values u Hin Hu (NInt 0)) as [e ->].
  now exists e.
Qed.

Lemma under_is_container (v data : pyval) :
  under_confidence_key v data -> is_number data = false.
Proof. now destruct 1. Qed.

(** A value under a key containing "confidence", anywhere in the tree, is
    collected or lies inside a collected mapping or sequence. *)
Lemma under_confidence_key_walk (v data : pyval) :
  under_confidence_key v data -> is_number v = false ->
  exists u, In u (walk data) /\ is_number u = false.
Proof.
  intros Hunder Hv.
  induction Hunder as [items k Hin Hk | items k child Hin Hchild IH
                      | items child Hin Hchild IH].
  - exists v. split; [|exact Hv]. cbn [walk]. apply in_flat_map.
    exists (k, v). split; [exact Hin|]. simpl. rewrite Hk. now left.
  - destruct (confidence_key k) eqn:Hk.
    + exists child. split; [|exact (under_is_container Hchild)].
      cbn [walk]. apply in_flat_map.
      exists (k, child). split; [exact Hin|]. simpl. rewrite Hk. now left.
    + destruct IH as (u & Hu & Hnum). exists u. split; [|exact Hnum].
      cbn [walk]. apply in_flat_map.
      exists (k, child). split; [exact Hin|]. simpl. now rewrite Hk.
  - destruct IH as (u & Hu & Hnum). exists u. split; [|exact Hnum].
    cbn [walk]. apply in_flat_map. now exists child.
Qed.

(** C9, as the code has it: when the answer parses to an object, a key of
    its top level contains "confidence", and somewhere in the tree the value
    of a key containing "confidence" is neither an [int], a [float] nor a
    [bool], then the collection holds a value that [sum] cannot add, the
    averaging raises, and the run ends with "Processing failed: ..." after
    the field count, without the download button. *)
Theorem non_number_confidence_fails (w : Widgets) (input_text result : str)
    (t0 : list call) (items : list (str * pyval)) (v : pyval) :
  truthy (api_key w) = true ->
  get_input_text w = (Normal input_text, t0) ->
  completion w input_text = Ok result ->
  json_loads result = Ok (PDict items) ->
  existsb confidence_key (map fst items) = true ->
  under_confidence_key v (PDict items) ->
  is_number v = false ->
  (exists u, In u (find_confidences (PDict items) []) /\ is_number u = false)
  /\ exists e,
       average (find_confidences (PDict items) []) = Err e
       /\ process w =
            (Normal tt,
             t0 ++ [completion_call w input_text;
                    st_success (9989 :: lit " Extraction complete!");
                    st_subheader (lit "Structured Data");
                    st_json (PDict items);
                    st_subheader (lit "Analysis");
                    st_metric (lit "Total Fields") (PInt (len items));
                    failed e]).
Proof.
  intros Hkey Hinput Hanswer Hloads Hgate Hunder Hv.
  rewrite find_confidences_is_walk.
  destruct (under_confidence_key_walk Hunder Hv) as (u & Hu & Hnum).
  split; [now exists u|].
  destruct (average_non_number _ u Hu Hnum) as [e He].
  exists e. split; [exact He|].
  rewrite (process_with_answer w Hkey Hinput Hanswer).
  unfold interpret, show_result, confidence_analysis, average_confidence.
  rewrite Hloads.
  cbv [bind lift ret emit raise try_except Exception isinstance_dict keys].
  rewrite Hgate, find_confidences_is_walk.
  destruct (walk (PDict items)) as [|x l] eqn:Hwalk; [contradiction|].
  rewrite He, (average_error _ He). reflexivity.
Qed.

End NonNumbers.

(** Where the code departs from C9 as it is worded. A string under a key
    containing "confidence" below the top level, with no such key at the top
    level, is never collected: the run ends with the download button and no
    error. And a boolean under such a key is added up by [sum] like a
    number. *)
Lemma nested_text_confidence_succeeds :
  let text := Prepared.json "{'a': {'b_confidence': 'high'}}" in
  let text' := Prepared.json "{'paid_confidence': true}" in
  let w := Prepared.widgets "sk-test" Automatic None "Alice is 30." "" in
  let v : pyval (F := Binary64.binary64) :=
    PDict [(lit "a", PDict [(lit "b_confidence", PStr (lit "high"))])] in
  let v' : pyval (F := Binary64.binary64) :=
    PDict [(lit "paid_confidence", PBool true)] in
  (Json.loads text = Some v
   /\ under_confidence_key (PStr (lit "high")) v
   /\ is_number (F := Binary64.binary64) (PStr (lit "high")) = false
   /\ fst (process (L := Prepared.answering text) w) = Normal tt
   /\ existsb is_download (snd (process (L := Prepared.answering text) w))
      = true
   /\ existsb is_error (snd (process (L := Prepared.answering text) w))
      = false)
  /\ (Json.loads text' = Some v'
      /\ under_confidence_key (PBool true) v'
      /\ is_json_number (F := Binary64.binary64) (PBool true) = false
      /\ fst (process (L := Prepared.answering text') w) = Normal tt
      /\ existsb is_download (snd (process (L := Prepared.answering text') w))
         = true
      /\ existsb is_error (snd (process (L := Prepared.answering text') w))
         = false).
Proof.
  repeat split.
  - eapply under_in_dict; [now left|].
    eapply under_here; [now left|reflexivity].
  - eapply under_here; [now left|reflexivity].
Qed.

Lemma non_number_confidence_witness :
  let text := Prepared.json "{'title': 'Invoice', 'title_confidence': 'high'}"
  in
  let w := Prepared.widgets "sk-test" Automatic None "Alice is 30." "" in
  let items : list (str * pyval (F := Binary64.binary64)) :=
    [(lit "title", PStr (lit "Invoice"));
     (lit "title_confidence", PStr (lit "high"))] in
  (exists u, In u (find_confidences (PDict items) []) /\ is_number u = false)
  /\ exists e,
       average (find_confidences (PDict items) []) = Err e
       /\ process (L := Prepared.answering text) w =
            (Normal tt,
             [completion_call w (lit "Alice is 30.");
              st_success (9989 :: lit " Extraction complete!");
              st_subheader (lit "Structured Data");
              st_json (PDict items);
              st_subheader (lit "Analysis");
              st_metric (lit "Total Fields") (PInt 2);
              failed e]).
Proof.
  apply (non_number_confidence_fails
           (L := Prepared.answering
                   (Prepared.json
                      "{'title': 'Invoice', 'title_confidence': 'high'}"))
           (Prepared.widgets "sk-test" Automatic None "Alice is 30." "")
           (input_text := lit "Alice is 30.")
           (result := Prepared.json
                        "{'title': 'Invoice', 'title_confidence': 'high'}")
           (t0 := [])
           (items := [(lit "title", PStr (lit "Invoice"));
                      (lit "title_confidence", PStr (lit "high"))])
           (v := PStr (lit "high"))
           eq_refl eq_refl eq_refl eq_refl eq_refl).
  - eapply under_here; [right; now left|reflexivity].
  - reflexivity.
Defined.

(** ** The round trip through [json] *)

Ltac div_lia := zify; Z.to_euclidean_division_equations; lia.

Unset Implicit Arguments.

Section Lexical.
Context {F : PyFloat}.
Import Json.



Lemma after_app (word rest : str) : after word (word ++ rest) = Some rest.
Proof.
  induction word as [|a word IH]; simpl; [reflexivity|].
  now rewrite N.eqb_refl.
Qed.



Lemma after_head (a c : N) (word s r : str) :
  after (a :: word) (c :: s) = Some r -> c = a.
Proof.
  simpl. destruct (N.eqb_spec a c); [congruence|discriminate].
Qed.

Lemma match_integer_head (c : N) (s : str) (r : str * str) :
  match_integer (c :: s) = Some r -> (c =? 45) || is_digit c = true.
Proof.
  unfold match_integer. destruct (c =? 45); [reflexivity|].
  destruct (N.eqb_spec c 48) as [->|_]; [reflexivity|].
  destruct (is_digit c); [reflexivity|discriminate].
Qed.

Lemma scan_number_head (c : N) (s : str) (r : pyval * str) :
  scan_number (c :: s) = Some r -> (c =? 45) || is_digit c = true.
Proof.
  unfold scan_number.
  destruct (match_integer (c :: s)) as [[integer s1]|] eqn:E; [|discriminate].
  intros _. exact (match_integer_head _ _ _ E).
Qed.

(** A text that scans starts with one of the characters of [is_start]. *)
Lemma scan_once_start (fuel : nat) (c : N) (s : str) (r : pyval * str) :
  scan_once fuel (c :: s) = Some r -> is_start c = true.
Proof.
  destruct fuel as [|fuel]; [discriminate|].
  cbn [scan_once]. unfold is_start.
  destruct (c =? 34); [reflexivity|].
  destruct (c =? 123); [reflexivity|].
  destruct (c =? 91); [reflexivity|].
  destruct (after (lit "null") (c :: s)) eqn:E1.
  { apply after_head in E1. subst c. reflexivity. }
  destruct (after (lit "true") (c :: s)) eqn:E2.
  { apply after_head in E2. subst c. reflexivity. }
  destruct (after (lit "false") (c :: s)) eqn:E3.
  { apply after_head in E3. subst c. reflexivity. }
  destruct (scan_number (c :: s)) eqn:E4.
  { apply scan_number_head in E4. intros _.
    destruct (c =? 45); [now rewrite ?orb_true_r|].
    simpl in E4. rewrite E4. now rewrite ?orb_true_r. }
  destruct (after (lit "NaN") (c :: s)) eqn:E5.
  { apply after_head in E5. subst c. reflexivity. }
  destruct (after (lit "Infinity") (c :: s)) eqn:E6.
  { apply after_head in E6. subst c. reflexivity. }
  destruct (after (lit "-Infinity") (c :: s)) eqn:E7.
  { apply after_head in E7. subst c. reflexivity. }
  discriminate.
Qed.

Lemma scan_once_nonempty (fuel : nat) (s : str) (r : pyval * str) :
  scan_once fuel s = Some r ->
  exists c s', s = c :: s' /\ is_start c = true.
Proof.
  destruct s as [|c s'].
  - destruct fuel; discriminate.
  - intros H. exists c, s'. split; [reflexivity|].
    exact (scan_once_start _ _ _ _ H).
Qed.

(** *** Number tokens followed by a delimiter *)








(** *** Integers *)








(** *** Strings *)




Lemma testbit_small (b m : N) : b < 2 ^ m -> N.testbit b m = false.
Proof.
  intros H. destruct (N.eq_dec b 0) as [->|Hb].
  - apply N.bits_0.
  - apply N.bits_above_log2. apply N.log2_lt_pow2; lia.
Qed.

Lemma lor_high_low (a b : N) :
  b < 1024 -> N.lor (a * 1024) b = a * 1024 + b.
Proof.
  intros Hb.
  assert (Hdisjoint : N.land (a * 1024) b = 0).
  { apply N.bits_inj_0. intros m. rewrite N.land_spec.
    change 1024 with (2 ^ 10).
    destruct (N.lt_ge_cases m 10) as [Hm|Hm].
    - now rewrite N.mul_pow2_bits_low.
    - rewrite (testbit_small b m), andb_false_r; [reflexivity|].
      apply N.lt_le_trans with (2 ^ 10); [exact Hb|].
      apply N.pow_le_mono_r; [discriminate|exact Hm]. }
  now rewrite <- N.lxor_lor, <- N.add_nocarry_lxor.
Qed.






(** *** [dict(pairs)] *)




Lemma dict_set_keys (d : list (str * pyval)) (k : str) (v : pyval) (x : str) :
  In x (map fst (dict_set d k v)) -> x = k \/ In x (map fst d).
Proof.
  induction d as [|[k' v'] d IH]; simpl.
  - intros [<-|[]]. now left.
  - destruct (PyStr.eqb k' k); simpl; intros [<-|H]; auto.
    destruct (IH H); auto.
Qed.

Lemma dict_set_nodup (d : list (str * pyval)) (k : str) (v : pyval) :
  NoDup (map fst d) -> NoDup (map fst (dict_set d k v)).
Proof.
  induction d as [|[k' v'] d IH]; simpl; intros Hnodup.
  - repeat constructor. intros [].
  - inversion Hnodup as [|? ? Hnotin Hrest]; subst.
    destruct (PyStr.eqb k' k) eqn:E; simpl.
    + now constructor.
    + constructor; [|now apply IH].
      intros Hin. apply dict_set_keys in Hin. destruct Hin as [->|Hin].
      * rewrite eqb_refl in E. discriminate.
      * contradiction.
Qed.

Lemma dict_set_Forall (P : str * pyval -> Prop) (d : list (str * pyval))
    (k : str) (v : pyval) :
  Forall P d -> P (k, v) -> Forall P (dict_set d k v).
Proof.
  intros Hd Hkv. induction Hd as [|[k' v'] d Hhead Htail IH]; simpl.
  - now repeat constructor.
  - destruct (PyStr.eqb k' k) eqn:E.
    + apply eqb_eq in E. subst k'. now constructor.
    + now constructor.
Qed.

Lemma dict_invariant (P : str * pyval -> Prop) (pairs : list (str * pyval)) :
  Forall P pairs -> NoDup (map fst (dict pairs)) /\ Forall P (dict pairs).
Proof.
  unfold dict.
  assert (H : forall acc,
    NoDup (map fst acc) -> Forall P acc -> Forall P pairs ->
    NoDup (map fst (fold_left (fun d kv => dict_set d (fst kv) (snd kv))
                      pairs acc))
    /\ Forall P (fold_left (fun d kv => dict_set d (fst kv) (snd kv))
                   pairs acc)).
  { induction pairs as [|[k v] pairs IH]; intros acc Hnodup Hacc Hpairs.
    - now split.
    - inversion Hpairs; subst. cbn [fold_left fst snd].
      apply IH; [now apply dict_set_nodup|now apply dict_set_Forall|assumption]. }
  intros Hpairs. apply H; [constructor|constructor|exact Hpairs].
Qed.

(** *** Scalars inside a text *)




End Lexical.

Section Structural.
Context {F : PyFloat}.
Import Json.









(** *** The length of the text is fuel enough *)





End Structural.

(** *** What the decoder leaves and what it builds *)

Section Remainders.
Context {F : PyFloat}.
Import Json.
Variable P : N -> Prop.








End Remainders.

Section Invariants.
Context {F : PyFloat}.
Import Json.














End Invariants.

(** ** The round trip *)

Section RoundTrip.
Context {F : PyFloat}.
Import Json.



End RoundTrip.




(** * Further properties *)

(** ** Documents that give no text *)

Section Refusals.
Context {F : PyFloat} {L : Libraries}.

Lemma eqb_neq (a b : str) : a <> b -> PyStr.eqb a b = false.
Proof.
  intros H. destruct (PyStr.eqb a b) eqn:E; [|reflexivity].
  apply eqb_eq in E. contradiction.
Qed.

(** The first element that raises ends a comprehension with its exception,
    whatever follows. *)
Lemma comprehension_first_error {A B} (f : A -> raises B)
    (before after : list A) (a : A) (e : exn) :
  Forall (fun x => exists b, f x = Ok b) before ->
  f a = Err e ->
  comprehension f (before ++ a :: after) = Err e.
Proof.
  intros Hbefore Ha.
  induction Hbefore as [|x before [b Hx] _ IH]; simpl.
  - now rewrite Ha.
  - now rewrite Hx, IH.
Qed.

(** X1: a file whose MIME type is none of the three the script knows is
    refused with the message "Unsupported file type: " followed by the type;
    neither a parser nor the decoder is called and the result is [None]. *)
Theorem unsupported_type_is_refused (file : UploadedFile) :
  file_type file <> pdf_mime ->
  file_type file <> docx_mime ->
  file_type file <> text_mime ->
  extract_text file =
    (Normal None,
     [st_error (lit "Unsupported file type: " ++ file_type file)]).
Proof.
  intros Hpdf Hdocx Htext. unfold extract_text.
  now rewrite (eqb_neq _ _ Hpdf), (eqb_neq _ _ Hdocx), (eqb_neq _ _ Htext).
Qed.

(** X2: when PyPDF2 refuses the file, or the text extraction of one of its
    pages raises, [extract_text] catches the exception, shows "PDF error: "
    followed by its message and returns [None]: the texts of the pages before
    the failing one are dropped. *)
Theorem pdf_failure_is_reported (file : UploadedFile) (e : exn) :
  file_type file = pdf_mime ->
  PdfReader_pages (getvalue file) = Err e
  \/ (exists before page after,
        PdfReader_pages (getvalue file) = Ok (before ++ page :: after)
        /\ Forall (fun p => exists text, page_extract_text p = Ok text) before
        /\ page_extract_text page = Err e) ->
  extract_text file =
    (Normal None,
     [PdfReader_call (getvalue file);
      st_error (lit "PDF error: " ++ exn_msg e)]).
Proof.
  intros Htype Hfail. unfold extract_text. rewrite Htype, eqb_refl.
  destruct Hfail as [Hreader|(before & page & after & Hreader & Hok & Hpage)];
    rewrite Hreader; cbn; [reflexivity|].
  rewrite (comprehension_first_error _ _ after _ _ Hok Hpage). reflexivity.
Qed.

(** X3: the same for a Word document: a failure of python-docx on the file or
    on one of its paragraphs is caught and shown as "Word error: " followed
    by the message, and the result is [None]. *)
Theorem word_failure_is_reported (file : UploadedFile) (e : exn) :
  file_type file = docx_mime ->
  Document_paragraphs (getvalue file) = Err e
  \/ (exists before paragraph after,
        Document_paragraphs (getvalue file)
        = Ok (before ++ paragraph :: after)
        /\ Forall (fun p => exists text, paragraph_text p = Ok text) before
        /\ paragraph_text paragraph = Err e) ->
  extract_text file =
    (Normal None,
     [Document_call (getvalue file);
      st_error (lit "Word error: " ++ exn_msg e)]).
Proof.
  intros Htype Hfail. unfold extract_text.
  destruct mime_types_differ as (Hdp & _ & _).
  rewrite Htype, Hdp, eqb_refl.
  destruct Hfail
    as [Hreader|(before & paragraph & after & Hreader & Hok & Hpar)];
    rewrite Hreader; cbn; [reflexivity|].
  rewrite (comprehension_first_error _ _ after _ _ Hok Hpar). reflexivity.
Qed.

(** Whenever [extract_text] returns [None] it has shown one error message,
    as its last call, and before it at most the call of a parser. *)
Lemma extract_text_none (file : UploadedFile) (t : list call) :
  extract_text file = (Normal None, t) ->
  exists t0 msg, t = t0 ++ [st_error msg] /\ Forall quiet t0.
Proof.
  unfold extract_text.
  destruct (PyStr.eqb (file_type file) pdf_mime).
  { destruct (PdfReader_pages (getvalue file)) as [pages|e]; cbn.
    - destruct (comprehension page_extract_text pages); cbn;
        intros H; inversion H; subst.
      eexists [_]; eexists; split; [reflexivity|]. repeat constructor.
    - intros H; inversion H; subst.
      eexists [_]; eexists; split; [reflexivity|]. repeat constructor. }
  destruct (PyStr.eqb (file_type file) docx_mime).
  { destruct (Document_paragraphs (getvalue file)) as [paragraphs|e]; cbn.
    - destruct (comprehension paragraph_text paragraphs); cbn;
        intros H; inversion H; subst.
      eexists [_]; eexists; split; [reflexivity|]. repeat constructor.
    - intros H; inversion H; subst.
      eexists [_]; eexists; split; [reflexivity|]. repeat constructor. }
  destruct (PyStr.eqb (file_type file) text_mime).
  { destruct (decode_utf8 (getvalue file)); cbn; intros H; inversion H. }
  cbn. intros H; inversion H; subst.
  exists [], (lit "Unsupported file type: " ++ file_type file).
  split; [reflexivity|constructor].
Qed.

(** X4: when the extraction of the uploaded document returns [None], the run
    stops there. Its calls are those of the extraction: one error message,
    the last call, and nothing before it that shows a result or reaches the
    completion endpoint. The "Processing failed" handler is not involved. *)
Theorem failed_extraction_stops_the_run (w : Widgets) (file : UploadedFile)
    (t : list call) :
  truthy (api_key w) = true ->
  uploaded_file w = Some file ->
  extract_text file = (Normal None, t) ->
  process w = (Stopped, t)
  /\ exists t0 msg, t = t0 ++ [st_error msg] /\ Forall quiet t0.
Proof.
  intros Hkey Hfile Hextract. split; [|exact (extract_text_none _ _ Hextract)].
  unfold process, get_input_text. rewrite Hkey, Hfile, Hextract.
  cbn. now rewrite app_nil_r.
Qed.

(** X5: the decoding of a plain-text file is outside every [try]: when the
    bytes are not UTF-8 the exception leaves the run. The script shows no
    message of its own and does not reach the completion endpoint. *)
Theorem undecodable_text_escapes (w : Widgets) (file : UploadedFile)
    (e : exn) :
  truthy (api_key w) = true ->
  uploaded_file w = Some file ->
  file_type file = text_mime ->
  decode_utf8 (getvalue file) = Err e ->
  process w = (Raised e, [decode_call (getvalue file)]).
Proof.
  intros Hkey Hfile Htype Hdecode.
  destruct mime_types_differ as (_ & Htp & Htd).
  unfold process, get_input_text, extract_text.
  rewrite Hkey, Hfile, Htype, Htp, Htd, eqb_refl, Hdecode. reflexivity.
Qed.

(** X6: with a credential, no uploaded file and an empty text area, the run
    shows "Please upload a file or paste text" and stops; nothing else is
    called. *)
Theorem missing_input_is_reported (w : Widgets) :
  truthy (api_key w) = true ->
  uploaded_file w = None ->
  text_input w = [] ->
  process w =
    (Stopped, [st_error (lit "Please upload a file or paste text")]).
Proof.
  intros Hkey Hfile Htext. unfold process, get_input_text.
  rewrite Hkey, Hfile, Htext. reflexivity.
Qed.

End Refusals.

Lemma unsupported_type_witness :
  extract_text (L := Prepared.parsing [] [])
      (Prepared.file_of (lit "image/png") "PNG")
    = (Normal None, [st_error (lit "Unsupported file type: image/png")]).
Proof.
  apply (unsupported_type_is_refused (L := Prepared.parsing [] [])
           (Prepared.file_of (lit "image/png") "PNG"));
    intros H; discriminate H.
Defined.

Lemma pdf_failure_witness :
  let broken := mk_exn (LibraryError (lit "PdfReadError"))
                  (lit "Invalid page object") in
  let L := Prepared.libraries
             {| Prepared.pdf_answer :=
                  Ok [Ok (lit "Page one"); Err broken; Ok (lit "Page three")];
                Prepared.docx_answer := Prepared.no_parser;
                Prepared.completion_answer := Ok (lit "{}") |} in
  extract_text (L := L) (Prepared.file_of pdf_mime "%PDF-1.4")
    = (Normal None,
       [PdfReader_call (Utf8.ascii_bytes "%PDF-1.4");
        st_error (lit "PDF error: Invalid page object")]).
Proof.
  apply (pdf_failure_is_reported
           (L := Prepared.libraries
                   {| Prepared.pdf_answer :=
                        Ok [Ok (lit "Page one");
                            Err (mk_exn (LibraryError (lit "PdfReadError"))
                                   (lit "Invalid page object"));
                            Ok (lit "Page three")];
                      Prepared.docx_answer := Prepared.no_parser;
                      Prepared.completion_answer := Ok (lit "{}") |})
           (Prepared.file_of pdf_mime "%PDF-1.4")
           (mk_exn (LibraryError (lit "PdfReadError"))
              (lit "Invalid page object"))
           eq_refl).
  right. exists [Ok (lit "Page one")].
  eexists. exists [Ok (lit "Page three")].
  split; [reflexivity|]. split; [|reflexivity].
  constructor; [|constructor]. now exists (lit "Page one").
Defined.

Lemma word_failure_witness :
  extract_text (L := Prepared.answering (lit "{}"))
      (Prepared.file_of docx_mime "not a package")
    = (Normal None,
       [Document_call (Utf8.ascii_bytes "not a package");
        st_error (lit "Word error: not a document")]).
Proof.
  apply (word_failure_is_reported (L := Prepared.answering (lit "{}"))
           (Prepared.file_of docx_mime "not a package")
           (mk_exn (LibraryError (lit "Exception")) (lit "not a document"))
           eq_refl).
  left. reflexivity.
Defined.

Lemma failed_extraction_witness :
  let w := Prepared.widgets "sk-test" Automatic
             (Some (Prepared.file_of (lit "image/png") "PNG"))
             "Pasted text" "" in
  let t := [st_error (F := Binary64.binary64)
              (lit "Unsupported file type: image/png")] in
  process (L := Prepared.answering (lit "{}")) w = (Stopped, t)
  /\ exists t0 msg, t = t0 ++ [st_error msg] /\ Forall quiet t0.
Proof.
  exact (failed_extraction_stops_the_run
           (L := Prepared.answering (lit "{}"))
           (Prepared.widgets "sk-test" Automatic
              (Some (Prepared.file_of (lit "image/png") "PNG"))
              "Pasted text" "")
           (Prepared.file_of (lit "image/png") "PNG")
           [st_error (lit "Unsupported file type: image/png")]
           eq_refl eq_refl eq_refl).
Defined.

Lemma undecodable_text_witness :
  let file := {| file_type := text_mime; getvalue := [Byte.xff] |} in
  let w := Prepared.widgets "sk-test" Automatic (Some file) "" "" in
  process (L := Prepared.answering (lit "{}")) w
    = (Raised (mk_exn UnicodeDecodeError
                 (lit ("'utf-8' codec can't decode byte 0xff in position 0: "
                       ++ "invalid start byte"))),
       [decode_call [Byte.xff]]).
Proof.
  exact (undecodable_text_escapes
           (L := Prepared.answering (lit "{}"))
           (Prepared.widgets "sk-test" Automatic
              (Some {| file_type := text_mime; getvalue := [Byte.xff] |})
              "" "")
           {| file_type := text_mime; getvalue := [Byte.xff] |}
           (mk_exn UnicodeDecodeError
              (lit ("'utf-8' codec can't decode byte 0xff in position 0: "
                    ++ "invalid start byte")))
           eq_refl eq_refl eq_refl eq_refl).
Defined.

Lemma missing_input_witness :
  process (L := Prepared.answering (lit "{}"))
      (Prepared.widgets "sk-test" Automatic None "" "")
    = (Stopped, [st_error (lit "Please upload a file or paste text")]).
Proof.
  exact (missing_input_is_reported
           (L := Prepared.answering (lit "{}"))
           (Prepared.widgets "sk-test" Automatic None "" "")
           eq_refl eq_refl eq_refl).
Defined.

(** ** The document inside the prompt *)

Section PromptFurther.
Context {F : PyFloat} {L : Libraries}.

Ltac find_segment :=
  repeat first [apply contains_here | apply contains_skip].

Lemma automatic_prompt_frame :
  exists pre,
    forall input_text,
      automatic_prompt input_text = pre ++ input_text ++ newline ++ indent.
Proof.
  exists (newline
          ++ flat_map (fun l => indent ++ l ++ newline)
               [lit ("Analyze this document and extract structured data as "
                       ++ "comprehensive JSON.");
                lit "Include:";
                lit "- Key entities (people, organizations, locations)";
                lit "- Important dates and numbers";
                lit "- Relationships between entities";
                lit "- Key-value pairs";
                lit "- Document structure";
                [];
                lit "Add confidence scores for each extracted field.";
                lit "Return ONLY the JSON output.";
                [];
                lit "Document:"]
          ++ indent).
  intros input_text. unfold automatic_prompt, block. cbn [flat_map].
  rewrite <- !app_assoc. reflexivity.
Qed.

Lemma schema_prompt_frame (template : option str) :
  exists pre post,
    forall input_text,
      schema_prompt template input_text = pre ++ input_text ++ post.
Proof.
  exists (newline
          ++ flat_map (fun l => indent ++ l ++ newline)
               [lit ("Convert this document into JSON following exactly "
                       ++ "this schema:");
                format_schema template;
                [];
                lit "Document content:"]
          ++ indent),
         (newline
          ++ flat_map (fun l => indent ++ l ++ newline)
               [[];
                lit "Rules:";
                lit "1. Include all available data";
                lit "2. Mark missing fields as null";
                confidence_rule;
                json_only_rule]
          ++ indent).
  intros input_text. unfold schema_prompt, block. cbn [flat_map].
  rewrite <- !app_assoc. reflexivity.
Qed.

Lemma build_prompt_frame (w : Widgets) :
  exists pre post,
    forall input_text, build_prompt w input_text = pre ++ input_text ++ post.
Proof.
  unfold build_prompt. destruct (extraction_mode w).
  - destruct automatic_prompt_frame as [pre Hpre].
    exists pre, (newline ++ indent). exact Hpre.
  - apply schema_prompt_frame.
Qed.

(** X7: in both modes the prompt is a fixed frame around the text of the
    document: the text is inserted as it is, what stands before and after it
    does not depend on it, and so two different documents never give the
    same prompt. *)
Theorem prompt_embeds_document (w : Widgets) :
  (exists pre post,
     forall input_text, build_prompt w input_text = pre ++ input_text ++ post)
  /\ (forall a b, build_prompt w a = build_prompt w b -> a = b).
Proof.
  split; [apply build_prompt_frame|].
  destruct (build_prompt_frame w) as (pre & post & Hframe).
  intros a b. rewrite !Hframe. intros H.
  apply app_inv_head in H. now apply app_inv_tail in H.
Qed.

(** X8: in automatic mode the prompt asks for confidence scores for each
    field and for the JSON output only, ends with the text of the document,
    and depends on nothing but that text: the schema template, the
    credential and the other settings do not enter it. *)
Theorem automatic_prompt_contents (w : Widgets) (input_text : str) :
  extraction_mode w = Automatic ->
  contains (lit "Add confidence scores for each extracted field.")
    (build_prompt w input_text) = true
  /\ contains (lit "Return ONLY the JSON output.")
       (build_prompt w input_text) = true
  /\ (exists pre,
        build_prompt w input_text = pre ++ input_text ++ newline ++ indent)
  /\ (forall w', extraction_mode w' = Automatic ->
        build_prompt w' input_text = build_prompt w input_text).
Proof.
  intros Hmode. unfold build_prompt. rewrite Hmode.
  split; [|split; [|split]].
  - unfold automatic_prompt, block. cbn [flat_map].
    rewrite <- !app_assoc. find_segment.
  - unfold automatic_prompt, block. cbn [flat_map].
    rewrite <- !app_assoc. find_segment.
  - destruct automatic_prompt_frame as [pre Hpre].
    now exists pre.
  - intros w' Hmode'. now rewrite Hmode'.
Qed.

End PromptFurther.

Lemma automatic_prompt_witness :
  let w := Prepared.widgets "sk-test" Automatic None "Alice is 30."
             "{ name: string }" in
  contains (lit "Add confidence scores for each extracted field.")
    (build_prompt w (lit "Alice is 30.")) = true
  /\ contains (lit "Return ONLY the JSON output.")
       (build_prompt w (lit "Alice is 30.")) = true
  /\ (exists pre,
        build_prompt w (lit "Alice is 30.")
        = pre ++ lit "Alice is 30." ++ newline ++ indent)
  /\ (forall w' : Widgets (F := Binary64.binary64),
        extraction_mode w' = Automatic ->
        build_prompt w' (lit "Alice is 30.")
        = build_prompt w (lit "Alice is 30.")).
Proof.
  exact (automatic_prompt_contents
           (Prepared.widgets "sk-test" Automatic None "Alice is 30."
              "{ name: string }")
           (lit "Alice is 30.") eq_refl).
Defined.

(** ** How a run ends *)

Section Outcomes.
Context {F : PyFloat} {L : Libraries}.

Lemma average_confidence_error (v : pyval) (e : exn) :
  average_confidence v = Err e -> is_JSONDecodeError e = false.
Proof.
  unfold average_confidence.
  destruct (keys v) as [ks|e'] eqn:Hkeys.
  - destruct (existsb confidence_key ks); [|discriminate].
    destruct (find_confidences v []) as [|x l]; [discriminate|].
    destruct (average (x :: l)) as [avg|e'] eqn:Havg; [discriminate|].
    intros H. inversion H; subst. eapply average_error. exact Havg.
  - intros H. inversion H; subst.
    destruct v; inversion Hkeys; reflexivity.
Qed.

(** The body of the inner [try], by the answers of the libraries. *)
Lemma show_result_outcome (result : str) :
  show_result result =
    match json_loads result with
    | Err e => (Raised e, [])
    | Ok v =>
        match average_confidence v with
        | Err e => (Raised e, shown v)
        | Ok None => (Normal tt, shown v ++ [download v])
        | Ok (Some avg_conf) =>
            match st_progress_raises avg_conf with
            | Some e => (Raised e, shown v ++ [average_metric avg_conf])
            | None =>
                (Normal tt,
                 shown v ++ [average_metric avg_conf; st_progress avg_conf;
                             download v])
            end
        end
    end.
Proof.
  unfold show_result, confidence_analysis, shown, download, average_metric.
  destruct (json_loads result) as [v|e]; [|reflexivity].
  destruct v; cbn -[average_confidence];
    match goal with
    | |- context [average_confidence ?v] =>
        destruct (average_confidence v) as [[avg_conf|]|e]
    end; cbn; try reflexivity;
    destruct (st_progress_raises avg_conf); reflexivity.
Qed.

(** After the completion call a run ends normally, in one of the ways of
    [ending]. *)
Lemma analyze_outcome (w : Widgets) (input_text : str) :
  exists rest,
    analyze w input_text = (Normal tt, completion_call w input_text :: rest)
    /\ ending rest.
Proof.
  destruct (completion w input_text) as [result|e] eqn:Hanswer.
  - rewrite (analyze_with_answer w input_text Hanswer).
    unfold interpret. rewrite show_result_outcome.
    destruct (json_loads result) as [v|e].
    + destruct (average_confidence v) as [[avg_conf|]|e] eqn:Hstat.
      * destruct (st_progress_raises avg_conf) as [e|].
        -- cbn. destruct (is_JSONDecodeError e); cbn.
           ++ destruct (st_code_raises result) as [refusal|] eqn:Hcode; cbn.
              ** eexists. split; [reflexivity|].
                 rewrite <- !app_assoc.
                 eapply ends_refused_metric. exact Hcode.
              ** eexists. split; [reflexivity|].
                 rewrite <- app_assoc. apply ends_raw_metric.
           ++ eexists. split; [reflexivity|].
              rewrite <- app_assoc. apply ends_failed_metric.
        -- cbn. eexists. split; [reflexivity|]. apply ends_progress.
      * cbn. eexists. split; [reflexivity|]. apply ends_download.
      * cbn. rewrite (average_confidence_error _ _ Hstat).
        eexists. split; [reflexivity|]. apply ends_failed_shown.
    + cbn. destruct (is_JSONDecodeError e); cbn.
      * destruct (st_code_raises result) as [refusal|] eqn:Hcode; cbn.
        -- eexists. split; [reflexivity|].
           eapply ends_refused. exact Hcode.
        -- eexists. split; [reflexivity|]. apply ends_raw.
      * eexists. split; [reflexivity|]. apply ends_failed.
  - unfold completion in Hanswer. unfold analyze. rewrite Hanswer. cbn.
    eexists. split; [reflexivity|]. apply ends_failed.
Qed.

(** [extract_text] raises only from the decoder and never stops the run
    itself. *)
Lemma extract_text_other (file : UploadedFile) (r : result (option str))
    (t : list call) :
  extract_text file = (r, t) ->
  match r with
  | Normal _ => True
  | Raised _ => Forall quiet t
  | Stopped => False
  end.
Proof.
  unfold extract_text.
  destruct (PyStr.eqb (file_type file) pdf_mime).
  { destruct (PdfReader_pages (getvalue file)) as [pages|e]; cbn.
    - destruct (comprehension page_extract_text pages); cbn;
        intros H; inversion H; subst; exact I.
    - intros H; inversion H; subst; exact I. }
  destruct (PyStr.eqb (file_type file) docx_mime).
  { destruct (Document_paragraphs (getvalue file)) as [paragraphs|e]; cbn.
    - destruct (comprehension paragraph_text paragraphs); cbn;
        intros H; inversion H; subst; exact I.
    - intros H; inversion H; subst; exact I. }
  destruct (PyStr.eqb (file_type file) text_mime).
  { destruct (decode_utf8 (getvalue file)); cbn;
      intros H; inversion H; subst; [exact I|repeat constructor]. }
  cbn. intros H; inversion H; subst; exact I.
Qed.

(** The choice of the input text makes quiet calls, followed by one error
    message at most, and it gives a text only without an error message. *)
Lemma get_input_text_outcome (w : Widgets) :
  exists t0 errors,
    snd (get_input_text w) = t0 ++ errors
    /\ Forall quiet t0
    /\ (errors = []
        \/ (exists msg, errors = [st_error msg])
           /\ fst (get_input_text w) = Stopped).
Proof.
  unfold get_input_text. destruct (uploaded_file w) as [file|].
  - destruct (extract_text file) as [[[text|]|e|] t] eqn:Hextract.
    + exists t, []. cbn. destruct (truthy text); cbn; rewrite !app_nil_r;
        repeat split; try (now left);
        exact (extract_text_quiet _ Hextract).
    + destruct (extract_text_none _ _ Hextract) as (t0 & msg & -> & Hquiet).
      exists t0, [st_error msg]. cbn. rewrite app_nil_r.
      repeat split; [exact Hquiet|]. right. split; [now exists msg|reflexivity].
    + exists t, []. cbn. rewrite app_nil_r.
      repeat split; [|now left].
      exact (extract_text_other _ _ _ Hextract).
    + destruct (extract_text_other _ _ _ Hextract).
  - destruct (truthy (text_input w)); cbn.
    + exists [], []. repeat split; [constructor|now left].
    + exists [], [st_error (lit "Please upload a file or paste text")].
      repeat split; [constructor|]. right. split; [eexists|]; reflexivity.
Qed.

(** A run either ends before the completion call, with quiet calls and one
    error message at most, or it ends normally after one completion call in
    one of the ways of [ending]. *)
Lemma process_outcome (w : Widgets) :
  (exists t0 errors,
     snd (process w) = t0 ++ errors
     /\ Forall quiet t0
     /\ (errors = [] \/ exists msg, errors = [st_error msg])
     /\ fst (process w) <> Normal tt)
  \/ (exists t0 input_text rest,
        process w = (Normal tt, t0 ++ completion_call w input_text :: rest)
        /\ Forall quiet t0
        /\ ending rest).
Proof.
  destruct (truthy (api_key w)) eqn:Hkey.
  - destruct (get_input_text_outcome w) as (t0 & errors & Ht & Hquiet & Herr).
    destruct (get_input_text w) as [[input_text|e|] t] eqn:Hinput.
    + right. cbn in Ht, Herr.
      destruct Herr as [->|[_ Hstop]]; [|discriminate].
      rewrite app_nil_r in Ht. subst t.
      destruct (analyze_outcome w input_text) as (rest & Hrun & Hend).
      exists t0, input_text, rest.
      rewrite (process_with_input w Hkey Hinput), Hrun. now repeat split.
    + left. exists t0, errors. unfold process. rewrite Hkey, Hinput. cbn.
      cbn in Ht, Herr. repeat split; try assumption; try discriminate.
      destruct Herr as [->|[Hmsg _]]; [now left|now right].
    + left. exists t0, errors. unfold process. rewrite Hkey, Hinput. cbn.
      cbn in Ht, Herr. repeat split; try assumption; try discriminate.
      destruct Herr as [->|[Hmsg _]]; [now left|now right].
  - left. exists [], [st_error (lit "Please enter your OpenAI API key")].
    unfold process. rewrite Hkey. cbn.
    repeat split; [constructor|right; eexists; reflexivity|discriminate].
Qed.

End Outcomes.

(** ** Failures and invariants of a run *)

Section RunInvariants.
Context {F : PyFloat} {L : Libraries}.

Lemma quiet_filters (t : list call) :
  Forall quiet t ->
  filter is_error t = [] /\ filter is_completion_call t = []
  /\ filter is_download t = [].
Proof.
  induction 1 as [|c t (Herror & Hresult & Hcall) _ (IH1 & IH2 & IH3)];
    [now repeat split|].
  cbn [filter]. rewrite Herror, Hcall, IH1, IH2, IH3.
  destruct c; try discriminate Hresult; now repeat split.
Qed.

Lemma shown_filters (v : pyval) :
  filter is_error (shown v) = [] /\ filter is_completion_call (shown v) = []
  /\ filter is_download (shown v) = [].
Proof. destruct v; now repeat split. Qed.

Lemma shown_json (v : pyval) : In (st_json v) (shown v).
Proof. unfold shown. apply in_or_app. left. cbn. tauto. Qed.

Lemma filter_nil_In {A} (f : A -> bool) (l : list A) (a : A) :
  filter f l = [] -> In a l -> f a = false.
Proof.
  intros Hnil Hin. destruct (f a) eqn:E; [|reflexivity].
  assert (H : In a (filter f l)) by (apply filter_In; now split).
  rewrite Hnil in H. destruct H.
Qed.

Lemma ending_calls (rest : list call) :
  ending rest -> filter is_completion_call rest = [].
Proof.
  destruct 1; rewrite ?filter_app;
    try (destruct (shown_filters v) as (_ & -> & _));
    reflexivity.
Qed.

(** After the completion call there is one error message at most, unless
    [st.code] has refused the answer after the message for invalid JSON. *)
Lemma ending_errors (rest : list call) :
  ending rest ->
  (List.length (filter is_error rest) <= 1)%nat
  \/ exists t result e,
       rest = t ++ [invalid_json; failed e]
       /\ filter is_error t = []
       /\ st_code_raises result = Some e.
Proof.
  destruct 1 as [e|result|v e|v|v avg_conf e|v avg_conf result
                |v avg_conf|result e Hcode|v avg_conf result e Hcode].
  - left. cbn. lia.
  - left. cbn. lia.
  - left. rewrite filter_app. destruct (shown_filters v) as (-> & _ & _).
    cbn. lia.
  - left. rewrite filter_app. destruct (shown_filters v) as (-> & _ & _).
    cbn. lia.
  - left. rewrite filter_app. destruct (shown_filters v) as (-> & _ & _).
    cbn. lia.
  - left. rewrite filter_app. destruct (shown_filters v) as (-> & _ & _).
    cbn. lia.
  - left. rewrite filter_app. destruct (shown_filters v) as (-> & _ & _).
    cbn. lia.
  - right. exists [], result, e. now repeat split.
  - right. exists (shown v ++ [average_metric avg_conf]), result, e.
    rewrite <- app_assoc. repeat split; [|exact Hcode].
    rewrite filter_app. destruct (shown_filters v) as (-> & _ & _).
    reflexivity.
Qed.

(** X9: when the completion endpoint raises (a network failure, a refused
    credential, a rate limit), the exception is caught: the run ends
    normally with "Processing failed: " followed by the message of the
    exception, and nothing of a result is shown. *)
Theorem completion_failure_is_reported (w : Widgets) (input_text : str)
    (t0 : list call) (e : exn) :
  truthy (api_key w) = true ->
  get_input_text w = (Normal input_text, t0) ->
  completion w input_text = Err e ->
  process w =
    (Normal tt, t0 ++ [completion_call w input_text; failed e]).
Proof.
  intros Hkey Hinput Hanswer.
  rewrite (process_with_input w Hkey Hinput).
  unfold completion in Hanswer. unfold analyze. rewrite Hanswer.
  reflexivity.
Qed.

(** X10: once the input text is chosen nothing leaves the run: whatever the
    completion endpoint, [json] and Streamlit answer or raise, the run calls
    the completion endpoint first and ends normally, neither with an
    exception nor with [st.stop()]. *)
Theorem analyze_always_completes (w : Widgets) (input_text : str) :
  exists rest,
    analyze w input_text = (Normal tt, completion_call w input_text :: rest).
Proof.
  destruct (analyze_outcome w input_text) as (rest & Hrun & _).
  now exists rest.
Qed.

(** X11: a run calls the completion endpoint once at most: no failure leads
    to a second attempt. *)
Theorem one_completion_call_at_most (w : Widgets) :
  (List.length (filter is_completion_call (snd (process w))) <= 1)%nat.
Proof.
  destruct (process_outcome w)
    as [(t0 & errors & -> & Hquiet & Herrors & _)
       |(t0 & input_text & rest & -> & Hquiet & Hend)];
    destruct (quiet_filters _ Hquiet) as (_ & Hcalls & _).
  - rewrite filter_app, Hcalls.
    destruct Herrors as [->|[msg ->]]; cbn; lia.
  - pose proof (ending_calls _ Hend) as Hrest.
    cbn [snd]. rewrite filter_app, Hcalls. cbn. rewrite Hrest. cbn. lia.
Qed.

(** X12: a run shows one error message at most, with one exception: when
    the answer is not JSON and [st.code] refuses it, the message for invalid
    JSON is followed by "Processing failed: ..." with the exception of
    [st.code], and these two are the only error messages and the last calls
    of the run. *)
Theorem one_error_unless_raw_answer_is_refused (w : Widgets) :
  (List.length (filter is_error (snd (process w))) <= 1)%nat
  \/ exists t result e,
       snd (process w) = t ++ [invalid_json; failed e]
       /\ filter is_error t = []
       /\ st_code_raises result = Some e.
Proof.
  destruct (process_outcome w)
    as [(t0 & errors & -> & Hquiet & Herrors & _)
       |(t0 & input_text & rest & -> & Hquiet & Hend)];
    destruct (quiet_filters _ Hquiet) as (Hnone & _ & _).
  - left. rewrite filter_app, Hnone.
    destruct Herrors as [->|[msg ->]]; cbn; lia.
  - cbn [snd].
    destruct (ending_errors _ Hend) as [Hrest|(t & result & e & -> & Ht & He)].
    + left. rewrite filter_app, Hnone. cbn. exact Hrest.
    + right. exists (t0 ++ completion_call w input_text :: t), result, e.
      rewrite <- app_assoc. repeat split; [|exact He].
      rewrite filter_app, Hnone. cbn. exact Ht.
Qed.

(** X13: the download button is the last call of a run without any error
    message that ends normally; the file is named [extracted_data.json] and
    its content is [json.dumps] of the very value that [st.json] has
    shown. *)
Theorem download_ends_a_clean_run (w : Widgets) (label data name : str) :
  In (st_download_button label data name) (snd (process w)) ->
  fst (process w) = Normal tt
  /\ filter is_error (snd (process w)) = []
  /\ name = lit "extracted_data.json"
  /\ exists t v,
       snd (process w) = t ++ [st_download_button label data name]
       /\ In (st_json v) t
       /\ data = json_dumps v.
Proof.
  intros Hin.
  destruct (process_outcome w)
    as [(t0 & errors & Ht & Hquiet & Herrors & _)
       |(t0 & input_text & rest & Hrun & Hquiet & Hend)];
    destruct (quiet_filters _ Hquiet) as (Hnone & _ & Hbutton).
  - exfalso. rewrite Ht in Hin. apply in_app_or in Hin.
    destruct Hin as [Hin|Hin].
    + pose proof (filter_nil_In _ _ _ Hbutton Hin). discriminate.
    + destruct Herrors as [->|[msg ->]]; [destruct Hin|].
      destruct Hin as [Hin|[]]. discriminate.
  - rewrite Hrun in *. cbn [fst snd] in *.
    assert (Hrest : In (st_download_button label data name) rest).
    { apply in_app_or in Hin. destruct Hin as [Hin|[Hin|Hin]].
      - pose proof (filter_nil_In _ _ _ Hbutton Hin). discriminate.
      - discriminate.
      - exact Hin. }
    clear Hin.
    assert (Hshown : forall v, ~ In (st_download_button label data name)
                                 (shown v)).
    { intros v Hv. destruct (shown_filters v) as (_ & _ & Hdl).
      pose proof (filter_nil_In _ _ _ Hdl Hv). discriminate. }
    pose proof shown_json as Hjson.
    destruct Hend as [e|result|v e|v|v avg_conf e|v avg_conf result
                     |v avg_conf|result e Hcode|v avg_conf result e Hcode].
    + destruct Hrest as [H|[]]; discriminate.
    + destruct Hrest as [H|[H|[]]]; discriminate.
    + apply in_app_or in Hrest.
      destruct Hrest as [H|[H|[]]]; [now apply Hshown in H|discriminate].
    + apply in_app_or in Hrest.
      destruct Hrest as [H|[H|[]]]; [now apply Hshown in H|].
      inversion H; subst. split; [reflexivity|].
      split; [|split; [reflexivity|]].
      { rewrite filter_app, Hnone.
        cbn [app filter completion_call is_error]. rewrite filter_app.
        destruct (shown_filters v) as (-> & _ & _). reflexivity. }
      exists (t0 ++ completion_call w input_text :: shown v), v.
      rewrite <- app_assoc. cbn [app]. repeat split.
      apply in_or_app. right. right. apply Hjson.
    + apply in_app_or in Hrest.
      destruct Hrest as [H|[H|[H|[]]]];
        [now apply Hshown in H|discriminate|discriminate].
    + apply in_app_or in Hrest.
      destruct Hrest as [H|[H|[H|[H|[]]]]];
        [now apply Hshown in H|discriminate|discriminate|discriminate].
    + apply in_app_or in Hrest.
      destruct Hrest as [H|[H|[H|[H|[]]]]];
        [now apply Hshown in H|discriminate|discriminate|].
      inversion H; subst. split; [reflexivity|].
      split; [|split; [reflexivity|]].
      { rewrite filter_app, Hnone.
        cbn [app filter completion_call is_error]. rewrite filter_app.
        destruct (shown_filters v) as (-> & _ & _). reflexivity. }
      exists (t0 ++ completion_call w input_text
                 :: shown v ++ [average_metric avg_conf;
                                st_progress avg_conf]), v.
      rewrite <- !app_assoc. cbn [app]. rewrite <- !app_assoc. cbn [app].
      repeat split.
      apply in_or_app. right. right. apply in_or_app. left.
      apply Hjson.
    + destruct Hrest as [H|[H|[]]]; discriminate.
    + apply in_app_or in Hrest.
      destruct Hrest as [H|[H|[H|[H|[]]]]];
        [now apply Hshown in H|discriminate|discriminate|discriminate].
Qed.

End RunInvariants.

(** ** What a parsed object shows *)

Section ObjectAnswers.
Context {F : PyFloat} {L : Libraries}.

(** X14: when the answer parses to an object and the confidence analysis
    raises nothing, the run shows, in this order: the success message, the
    object, its number of top-level keys as "Total Fields", then (when the
    statistic exists and Streamlit accepts it as a progress value) the
    average as a percentage and as a progress bar, and last the download
    button with [json.dumps] of the object. *)
Theorem object_answer_is_shown (w : Widgets) (input_text result : str)
    (t0 : list call) (items : list (str * pyval)) (stat : option float) :
  truthy (api_key w) = true ->
  get_input_text w = (Normal input_text, t0) ->
  completion w input_text = Ok result ->
  json_loads result = Ok (PDict items) ->
  average_confidence (PDict items) = Ok stat ->
  (forall avg_conf, stat = Some avg_conf ->
     st_progress_raises avg_conf = None) ->
  process w =
    (Normal tt,
     t0 ++ [completion_call w input_text;
            st_success (9989 :: lit " Extraction complete!");
            st_subheader (lit "Structured Data");
            st_json (PDict items);
            st_subheader (lit "Analysis");
            st_metric (lit "Total Fields") (PInt (len items))]
        ++ match stat with
           | Some avg_conf =>
               [st_metric (lit "Average Confidence")
                  (PStr (format_percent avg_conf));
                st_progress avg_conf]
           | None => []
           end
        ++ [st_download_button (128190 :: lit " Download JSON")
              (json_dumps (PDict items)) (lit "extracted_data.json")]).
Proof.
  intros Hkey Hinput Hanswer Hloads Hstat Hbar.
  rewrite (process_with_answer w Hkey Hinput Hanswer).
  unfold interpret. rewrite show_result_outcome, Hloads, Hstat.
  destruct stat as [avg_conf|].
  - rewrite (Hbar avg_conf eq_refl). reflexivity.
  - reflexivity.
Qed.

(** X15: when Streamlit refuses the average as a progress value (it is not
    between 0 and 1), the percentage is already shown; the exception is
    caught, the run ends with "Processing failed: ..." and there is neither
    a progress bar nor a download button. *)
Theorem progress_refusal_fails_the_run (w : Widgets)
    (input_text result : str) (t0 : list call) (items : list (str * pyval))
    (avg_conf : float) (e : exn) :
  truthy (api_key w) = true ->
  get_input_text w = (Normal input_text, t0) ->
  completion w input_text = Ok result ->
  json_loads result = Ok (PDict items) ->
  average_confidence (PDict items) = Ok (Some avg_conf) ->
  st_progress_raises avg_conf = Some e ->
  is_JSONDecodeError e = false ->
  process w =
    (Normal tt,
     t0 ++ [completion_call w input_text;
            st_success (9989 :: lit " Extraction complete!");
            st_subheader (lit "Structured Data");
            st_json (PDict items);
            st_subheader (lit "Analysis");
            st_metric (lit "Total Fields") (PInt (len items));
            st_metric (lit "Average Confidence")
              (PStr (format_percent avg_conf));
            failed e]).
Proof.
  intros Hkey Hinput Hanswer Hloads Hstat Hbar Hclass.
  rewrite (process_with_answer w Hkey Hinput Hanswer).
  unfold interpret. rewrite show_result_outcome, Hloads, Hstat, Hbar.
  cbn. rewrite Hclass. reflexivity.
Qed.

End ObjectAnswers.

Lemma completion_failure_witness :
  let refused := mk_exn (LibraryError (lit "AuthenticationError"))
                   (lit "Incorrect API key provided") in
  let L := Prepared.libraries
             {| Prepared.pdf_answer := Prepared.no_parser;
                Prepared.docx_answer := Prepared.no_parser;
                Prepared.completion_answer := Err refused |} in
  let w := Prepared.widgets "sk-test" Automatic None "Alice is 30." "" in
  process (L := L) w =
    (Normal tt,
     [completion_call w (lit "Alice is 30.");
      st_error (lit "Processing failed: Incorrect API key provided")]).
Proof.
  exact (completion_failure_is_reported
           (L := Prepared.libraries
                   {| Prepared.pdf_answer := Prepared.no_parser;
                      Prepared.docx_answer := Prepared.no_parser;
                      Prepared.completion_answer :=
                        Err (mk_exn (LibraryError (lit "AuthenticationError"))
                               (lit "Incorrect API key provided")) |})
           (Prepared.widgets "sk-test" Automatic None "Alice is 30." "")
           (lit "Alice is 30.") []
           (mk_exn (LibraryError (lit "AuthenticationError"))
              (lit "Incorrect API key provided"))
           eq_refl eq_refl eq_refl).
Defined.

Lemma download_witness :
  let w := Prepared.widgets "sk-test" Automatic None "Alice is 30." "" in
  let run := process (L := Prepared.answering
                             (Prepared.json "{'name': 'Alice'}")) w in
  let content := Prepared.json "{
  'name': 'Alice'
}" in
  fst run = Normal tt
  /\ filter is_error (snd run) = []
  /\ lit "extracted_data.json" = lit "extracted_data.json"
  /\ exists t v,
       snd run
       = t ++ [st_download_button (128190 :: lit " Download JSON") content
                 (lit "extracted_data.json")]
       /\ In (st_json v) t
       /\ content = Json.dumps v.
Proof.
  apply (download_ends_a_clean_run
           (L := Prepared.answering (Prepared.json "{'name': 'Alice'}"))
           (Prepared.widgets "sk-test" Automatic None "Alice is 30." "")
           (128190 :: lit " Download JSON")).
  cbn [snd]. do 6 right. left. reflexivity.
Defined.

Lemma object_answer_witness :
  let text := Prepared.json
    "{'name': 'Alice', 'name_confidence': 0.9, 'age_confidence': 0.7}" in
  let w := Prepared.widgets "sk-test" Automatic None "Alice is 30." "" in
  let nine_tenths : pyval (F := Binary64.binary64) :=
    PFloat (float_of_str (lit "0.9")) in
  let seven_tenths : pyval (F := Binary64.binary64) :=
    PFloat (float_of_str (lit "0.7")) in
  let items := [(lit "name", PStr (lit "Alice"));
                (lit "name_confidence", nine_tenths);
                (lit "age_confidence", seven_tenths)] in
  process (L := Prepared.answering text) w =
    (Normal tt,
     [] ++ [completion_call w (lit "Alice is 30.");
            st_success (9989 :: lit " Extraction complete!");
            st_subheader (lit "Structured Data");
            st_json (PDict items);
            st_subheader (lit "Analysis");
            st_metric (lit "Total Fields") (PInt 3)]
        ++ [st_metric (lit "Average Confidence") (PStr (lit "80%"));
            st_progress (float_of_str (lit "0.8"))]
        ++ [st_download_button (128190 :: lit " Download JSON")
              (Json.dumps (PDict items)) (lit "extracted_data.json")]).
Proof.
  apply (object_answer_is_shown
           (L := Prepared.answering
                   (Prepared.json
                      "{'name': 'Alice', 'name_confidence': 0.9, 'age_confidence': 0.7}"))
           (Prepared.widgets "sk-test" Automatic None "Alice is 30." "")
           (lit "Alice is 30.")
           (Prepared.json
              "{'name': 'Alice', 'name_confidence': 0.9, 'age_confidence': 0.7}")
           []
           [(lit "name", PStr (lit "Alice"));
            (lit "name_confidence", PFloat (float_of_str (lit "0.9")));
            (lit "age_confidence", PFloat (float_of_str (lit "0.7")))]
           (Some (float_of_str (lit "0.8")))
           eq_refl eq_refl eq_refl eq_refl eq_refl).
  intros avg_conf H. inversion H; subst. reflexivity.
Defined.

Lemma progress_refusal_witness :
  let text := Prepared.json "{'total': 40, 'total_confidence': 2}" in
  let w := Prepared.widgets "sk-test" Automatic None "Alice is 30." "" in
  let items : list (str * pyval (F := Binary64.binary64)) :=
    [(lit "total", PInt 40); (lit "total_confidence", PInt 2)] in
  exists e,
    st_progress_raises (Libraries := Prepared.answering text)
      (float_of_str (lit "2.0")) = Some e
    /\ process (L := Prepared.answering text) w =
         (Normal tt,
          [] ++ [completion_call w (lit "Alice is 30.");
                 st_success (9989 :: lit " Extraction complete!");
                 st_subheader (lit "Structured Data");
                 st_json (PDict items);
                 st_subheader (lit "Analysis");
                 st_metric (lit "Total Fields") (PInt 2);
                 st_metric (lit "Average Confidence") (PStr (lit "200%"));
                 failed e]).
Proof.
  eexists. split; [reflexivity|].
  exact (progress_refusal_fails_the_run
           (L := Prepared.answering
                   (Prepared.json "{'total': 40, 'total_confidence': 2}"))
           (Prepared.widgets "sk-test" Automatic None "Alice is 30." "")
           (lit "Alice is 30.")
           (Prepared.json "{'total': 40, 'total_confidence': 2}")
           []
           [(lit "total", PInt 40); (lit "total_confidence", PInt 2)]
           (float_of_str (lit "2.0")) _
           eq_refl eq_refl eq_refl eq_refl eq_refl eq_refl eq_refl).
Defined.

(** ** From the document to the endpoint *)

Section Composition.
Context {F : PyFloat} {L : Libraries}.

(** X16: with a credential, the text that goes to the completion endpoint
    is the non-empty text extracted from the uploaded document or, without a
    document, the non-empty content of the text area. The endpoint is called
    once this text is there, with the credential, the model, the temperature
    and the token limit of the sidebar as they are, and with a prompt that
    holds the text unchanged; the run then ends normally. *)
Theorem input_text_reaches_the_endpoint (w : Widgets) (file : UploadedFile)
    (text : str) (t0 : list call) :
  truthy (api_key w) = true ->
  (uploaded_file w = Some file
   /\ extract_text file = (Normal (Some text), t0))
  \/ (uploaded_file w = None /\ text_input w = text /\ t0 = []) ->
  truthy text = true ->
  exists pre post rest,
    process w =
      (Normal tt,
       t0 ++ ChatCompletion_create_call (api_key w) (model w)
               (pre ++ text ++ post) (temperature w) (max_tokens w) :: rest).
Proof.
  intros Hkey Hsource Htext.
  assert (Hinput : get_input_text w = (Normal text, t0)).
  { unfold get_input_text.
    destruct Hsource as [[Hfile Hextract]|(Hfile & Hpasted & ->)];
      rewrite Hfile.
    - rewrite Hextract. cbn. rewrite Htext. cbn. now rewrite app_nil_r.
    - rewrite Hpasted, Htext. reflexivity. }
  rewrite (process_with_input w Hkey Hinput).
  destruct (build_prompt_frame w) as (pre & post & Hprompt).
  destruct (analyze_outcome w text) as (rest & Hrun & _).
  exists pre, post, rest. rewrite Hrun. cbn [fst snd].
  unfold completion_call. now rewrite Hprompt.
Qed.

End Composition.

Lemma input_text_witness :
  let file := Prepared.text_file "Invoice 42" in
  let w := Prepared.widgets "sk-test" Automatic (Some file) "Pasted text" ""
  in
  exists pre post rest,
    process (L := Prepared.answering (lit "{}")) w =
      (Normal tt,
       [decode_call (Utf8.ascii_bytes "Invoice 42")]
         ++ ChatCompletion_create_call (lit "sk-test")
              (lit "gpt-4-turbo-preview")
              (pre ++ lit "Invoice 42" ++ post)
              (float_of_str (lit "0.3")) 1500 :: rest).
Proof.
  apply (input_text_reaches_the_endpoint
           (L := Prepared.answering (lit "{}"))
           (Prepared.widgets "sk-test" Automatic
              (Some (Prepared.text_file "Invoice 42")) "Pasted text" "")
           (Prepared.text_file "Invoice 42")
           (lit "Invoice 42")
           [decode_call (Utf8.ascii_bytes "Invoice 42")]
           eq_refl).
  - left. split; reflexivity.
  - reflexivity.
Defined.

(** ** The collected values *)

Section Collection.
Context {F : PyFloat}.

(** X17: every value that [find_confidences] collects is the value of a key
    that contains "confidence", somewhere in the tree: nothing else enters
    the average. *)
Theorem collected_values_lie_under_confidence_keys (data v : pyval) :
  In v (find_confidences data []) -> under_confidence_key v data.
Proof.
  rewrite find_confidences_is_walk.
  induction data as [| b | z | f | s | items IH | items IH]
    using pyval_induction; cbn [walk]; try contradiction.
  - intros Hin. apply in_flat_map in Hin. destruct Hin as (child & Hchild & Hv).
    eapply under_in_list; [exact Hchild|].
    exact (proj1 (Forall_forall _ _) IH child Hchild Hv).
  - intros Hin. apply in_flat_map in Hin.
    destruct Hin as ([k child] & Hchild & Hv). cbn [fst snd] in Hv.
    destruct (confidence_key k) eqn:Hk.
    + destruct Hv as [<-|[]]. eapply under_here; [exact Hchild|exact Hk].
    + eapply under_in_dict; [exact Hchild|].
      exact (proj1 (Forall_forall _ _) IH (k, child) Hchild Hv).
Qed.

Lemma sum_from_integers (values : list pyval) :
  Forall (fun v => is_integer v = true) values ->
  forall total,
    sum_from (NInt total) values =
      Ok (NInt (total + fold_right Z.add 0%Z (map int_value values))).
Proof.
  induction 1 as [|v values Hv _ IH]; intros total; simpl.
  - now rewrite Z.add_0_r.
  - destruct v; try discriminate Hv; simpl; rewrite IH;
      now rewrite Z.add_assoc.
Qed.

(** X18: confidence values that are all integers or booleans are added as
    integers, [True] as 1 and [False] as 0, without any rounding; the
    average is the true division of the exact total by the number of values,
    rounded once. *)
Theorem integer_confidences_sum_exactly (values : list pyval) :
  Forall (fun v => is_integer v = true) values ->
  values <> [] ->
  sum values = Ok (NInt (fold_right Z.add 0%Z (map int_value values)))
  /\ average values =
       match int_truediv (fold_right Z.add 0%Z (map int_value values))
               (len values) with
       | Some q => Ok q
       | None =>
           Err (mk_exn OverflowError
                  (lit "integer division result too large for a float"))
       end.
Proof.
  intros Hints Hne.
  assert (Hsum : sum values
                 = Ok (NInt (fold_right Z.add 0%Z (map int_value values)))).
  { unfold sum. now rewrite (sum_from_integers values Hints 0%Z). }
  split; [exact Hsum|].
  unfold average. rewrite Hsum. unfold truediv, len.
  destruct values as [|v values]; [contradiction|].
  reflexivity.
Qed.

End Collection.

Lemma collected_values_witness :
  let high : pyval (F := Binary64.binary64) := PStr (lit "high") in
  let data := PDict [(lit "rows",
                      PList [PDict [(lit "cell", PInt 1);
                                    (lit "cell_confidence", high)]])] in
  under_confidence_key high data.
Proof.
  apply (collected_values_lie_under_confidence_keys
           (F := Binary64.binary64)
           (PDict [(lit "rows",
                    PList [PDict [(lit "cell", PInt 1);
                                  (lit "cell_confidence",
                                   PStr (lit "high"))]])])
           (PStr (lit "high"))).
  left. reflexivity.
Defined.

Lemma integer_confidences_witness :
  let values : list (pyval (F := Binary64.binary64)) :=
    [PInt 1; PBool true; PInt 0; PBool false] in
  sum values = Ok (NInt 2)
  /\ average values = Ok (float_of_str (lit "0.5")).
Proof.
  apply (integer_confidences_sum_exactly (F := Binary64.binary64)
           [PInt 1; PBool true; PInt 0; PBool false]).
  - repeat constructor.
  - discriminate.
Defined.

(** ** What [json.loads] takes for an answer *)

Section Answers.
Context {F : PyFloat}.
Import Json.

Lemma loads_start (text : str) (v : pyval) :
  loads text = Some v ->
  exists c s, skip_ws text = c :: s /\ is_start c = true.
Proof.
  unfold loads. destruct (startswith [65279] text); [discriminate|].
  destruct (scan_once (List.length text) (skip_ws text)) as [[obj rest]|] eqn:E;
    [|discriminate].
  intros _. exact (scan_once_nonempty _ _ _ E).
Qed.

Lemma scan_number_not_dict (s r : str) (items : list (str * pyval)) :
  scan_number s <> Some (PDict items, r).
Proof.
  unfold scan_number.
  destruct (match_integer s) as [[integer s1]|]; [|discriminate].
  destruct (match_frac s1) as [[frac s2]|];
    match goal with
    | |- context [match_exp ?x] => destruct (match_exp x) as [[exp s3]|]
    end;
    match goal with
    | |- context [match ?a ++ ?b with _ => _ end] => destruct (a ++ b)
    end; discriminate.
Qed.

Lemma scan_once_dict_keys (fuel : nat) (s rest : str)
    (items : list (str * pyval)) :
  scan_once fuel s = Some (PDict items, rest) -> NoDup (map fst items).
Proof.
  destruct fuel as [|fuel]; [discriminate|].
  destruct s as [|c s]; [discriminate|].
  cbn [scan_once].
  destruct (c =? 34).
  { destruct (scanstring s) as [[content s']|]; discriminate. }
  destruct (c =? 123).
  { destruct (skip_ws s) as [|c1 s1]; [discriminate|].
    destruct (c1 =? 125).
    - intros H. inversion H; subst. constructor.
    - destruct (c1 =? 34); [|discriminate].
      destruct (JSONObject_loop fuel s1) as [[pairs s']|]; [|discriminate].
      intros H. inversion H; subst.
      apply (dict_invariant (fun _ => True) pairs).
      apply Forall_forall. intros; exact I. }
  destruct (c =? 91).
  { destruct (skip_ws s) as [|c1 s1]; [discriminate|].
    destruct (c1 =? 93); [discriminate|].
    destruct (JSONArray_loop fuel (c1 :: s1)) as [[values s']|];
      discriminate. }
  destruct (after (lit "null") (c :: s)); [discriminate|].
  destruct (after (lit "true") (c :: s)); [discriminate|].
  destruct (after (lit "false") (c :: s)); [discriminate|].
  destruct (scan_number (c :: s)) as [[v r]|] eqn:E.
  { intros H. inversion H; subst. now apply scan_number_not_dict in E. }
  destruct (after (lit "NaN") (c :: s)); [discriminate|].
  destruct (after (lit "Infinity") (c :: s)); [discriminate|].
  destruct (after (lit "-Infinity") (c :: s)); discriminate.
Qed.

(** X20: the keys of a parsed object are distinct: "Total Fields", the
    length of the [dict], counts every key of the top level once, however
    often the answer repeats it. *)
Theorem parsed_object_keys_are_distinct (text : str)
    (items : list (str * pyval)) :
  loads text = Some (PDict items) -> NoDup (map fst items).
Proof.
  unfold loads. destruct (startswith [65279] text); [discriminate|].
  destruct (scan_once (List.length text) (skip_ws text)) as [[obj rest]|] eqn:E;
    [|discriminate].
  destruct (skip_ws rest); [|discriminate].
  intros H. inversion H; subst.
  exact (scan_once_dict_keys _ _ _ _ E).
Qed.

Lemma get_dict_set (d : list (str * pyval)) (k x : str) (v : pyval) :
  get x (dict_set d k v) = if PyStr.eqb k x then Some v else get x d.
Proof.
  induction d as [|[k' v'] d IH]; simpl; [reflexivity|].
  destruct (PyStr.eqb k' k) eqn:Ek; simpl.
  - apply eqb_eq in Ek. subst k'. now destruct (PyStr.eqb k x).
  - rewrite IH. destruct (PyStr.eqb k' x) eqn:Ex; [|reflexivity].
    apply eqb_eq in Ex. subst x.
    destruct (PyStr.eqb k k') eqn:Ek'; [|reflexivity].
    apply eqb_eq in Ek'. subst k'. rewrite eqb_refl in Ek. discriminate.
Qed.

Lemma get_fold_dict_set (x : str) (pairs acc : list (str * pyval)) :
  get x (fold_left (fun d kv => dict_set d (fst kv) (snd kv)) pairs acc) =
    match last_value x pairs with
    | Some v => Some v
    | None => get x acc
    end.
Proof.
  revert acc. induction pairs as [|[k v] pairs IH]; intros acc.
  - reflexivity.
  - cbn [fold_left fst snd last_value]. rewrite IH, get_dict_set.
    destruct (last_value x pairs); [reflexivity|].
    now destruct (PyStr.eqb k x).
Qed.

(** X21: when an object of the answer repeats a key, the [dict] holds the
    value of its last occurrence, and a key that does not occur is not
    there. *)
Theorem repeated_key_keeps_the_last_value (k : str)
    (pairs : list (str * pyval)) :
  get k (dict pairs) = last_value k pairs.
Proof.
  unfold dict. rewrite get_fold_dict_set.
  now destruct (last_value k pairs).
Qed.

End Answers.

Lemma first_surrogates_none (s : str) :
  existsb Utf8.surrogate s = false ->
  forall pos, Utf8.first_surrogates s pos = None.
Proof.
  induction s as [|c s IH]; intros Hnone pos; [reflexivity|].
  cbn [existsb] in Hnone. apply orb_false_iff in Hnone.
  destruct Hnone as [Hc Hs]. cbn [Utf8.first_surrogates].
  rewrite Hc. now apply IH.
Qed.

(** A text without surrogate code points is taken by [st.code]. *)
Lemma code_model_accepts (s : str) :
  existsb Utf8.surrogate s = false -> Prepared.code_model s = None.
Proof.
  intros Hnone. unfold Prepared.code_model, Utf8.encode_error.
  now rewrite (first_surrogates_none s Hnone 0).
Qed.

(** X19: an answer whose first character after leading whitespace cannot
    start a JSON value (prose, a Markdown code fence), or that holds nothing
    but whitespace, is not parsed. When it holds no surrogate code point, so
    that [st.code] can send it, the run ends with the message for invalid
    JSON and the answer itself, unchanged. *)
Theorem answer_must_start_with_a_value
    (w : Widgets (F := Binary64.binary64)) (input_text text : str)
    (t0 : list call) :
  truthy (api_key w) = true ->
  get_input_text (L := Prepared.answering text) w = (Normal input_text, t0) ->
  (forall c s, Json.skip_ws text = c :: s -> is_start c = false) ->
  existsb Utf8.surrogate text = false ->
  Json.loads (F := Binary64.binary64) text = None
  /\ process (L := Prepared.answering text) w =
       (Normal tt,
        t0 ++ [completion_call w input_text; invalid_json; st_code text]).
Proof.
  intros Hkey Hinput Hstart Hplain.
  assert (Hnone : Json.loads (F := Binary64.binary64) text = None).
  { destruct (Json.loads text) as [v|] eqn:E; [|reflexivity].
    destruct (loads_start text v E) as (c & s & Hs & Hc).
    rewrite (Hstart c s Hs) in Hc. discriminate. }
  split; [exact Hnone|].
  rewrite (process_with_answer (L := Prepared.answering text) w
             (result := text) Hkey Hinput eq_refl).
  unfold interpret. rewrite show_result_outcome.
  change (json_loads text) with (Prepared.json_loads_model text).
  change (st_code_raises text) with (Prepared.code_model text).
  unfold Prepared.json_loads_model.
  rewrite Hnone, (code_model_accepts text Hplain). reflexivity.
Qed.

Lemma fenced_answer_witness :
  let text := lit "```json
{}
```" in
  let w := Prepared.widgets "sk-test" Automatic None "Alice is 30." "" in
  Json.loads (F := Binary64.binary64) text = None
  /\ process (L := Prepared.answering text) w =
       (Normal tt,
        [] ++ [completion_call w (lit "Alice is 30."); invalid_json;
               st_code text]).
Proof.
  apply (answer_must_start_with_a_value
           (Prepared.widgets "sk-test" Automatic None "Alice is 30." "")
           (lit "Alice is 30.")
           (lit "```json
{}
```") [] eq_refl eq_refl).
  - intros c s H. inversion H; subst. reflexivity.
  - reflexivity.
Defined.

Lemma parsed_object_keys_witness :
  let text := Prepared.json "{'name': 'Alice', 'age': 30, 'name': 'Bob'}" in
  let items : list (str * pyval (F := Binary64.binary64)) :=
    [(lit "name", PStr (lit "Bob")); (lit "age", PInt 30)] in
  Json.loads text = Some (PDict items) /\ NoDup (map fst items).
Proof.
  split; [reflexivity|].
  exact (parsed_object_keys_are_distinct (F := Binary64.binary64)
           (Prepared.json "{'name': 'Alice', 'age': 30, 'name': 'Bob'}")
           [(lit "name", PStr (lit "Bob")); (lit "age", PInt 30)]
           eq_refl).
Defined.

(** ** The characters of the download *)

Section Printable.
Import Json.

Lemma printable_range (c : N) : 32 <= c <= 126 -> printable c = true.
Proof.
  intros [Hlow Hhigh]. unfold printable.
  apply orb_true_iff. left. apply andb_true_iff.
  split; now apply N.leb_le.
Qed.

Lemma hex_digit_printable (n : N) : n < 16 -> printable (hex_digit n) = true.
Proof.
  intros Hn. apply printable_range. unfold hex_digit.
  destruct (N.ltb_spec n 10); lia.
Qed.

Lemma u_escape_printable (n :
  N) : n < 65536 ->
  Forall (fun c => printable c = true) (u_escape n).
Proof.
  intros Hn. unfold u_escape.
  repeat constructor; apply hex_digit_printable; div_lia.
Qed.

Lemma escape_char_printable (c :
  N) : Forall (fun c => printable c = true) (escape_char c).
Proof.
  unfold escape_char.
  repeat match goal with
         | |- Forall _ (if ?a =? ?b then _ else _) =>
             destruct (a =? b); [repeat constructor|]
         end.
  destruct ((32 <=? c) && (c <=? 126)) eqn:Hrange.
  { repeat constructor. unfold printable. now rewrite Hrange. }
  destruct (N.ltb_spec c 65536) as [Hlow|Hhigh].
  { now apply u_escape_printable. }
  apply Forall_app. split; apply u_escape_printable.
  - change 55296 with (54 * 1024). change 1023 with (N.ones 10).
    rewrite N.land_ones, lor_high_low; [|now apply N.mod_lt].
    pose proof (N.mod_lt (N.shiftr (c - 65536) 10) (2 ^ 10)). lia.
  - change 56320 with (55 * 1024). change 1023 with (N.ones 10).
    rewrite N.land_ones, lor_high_low; [|now apply N.mod_lt].
    pose proof (N.mod_lt (c - 65536) (2 ^ 10)). lia.
Qed.

Lemma encode_basestring_ascii_printable (s : str) :
  Forall (fun c => printable c = true) (encode_basestring_ascii s).
Proof.
  unfold encode_basestring_ascii. constructor; [reflexivity|].
  apply Forall_app. split; [|repeat constructor].
  induction s as [|c s IH]; simpl; [constructor|].
  apply Forall_app. split; [apply escape_char_printable|exact IH].
Qed.

Lemma uint_chars_printable (d :
  Decimal.uint) : Forall (fun c => printable c = true) (uint_chars d).
Proof. induction d; simpl; constructor; (reflexivity || assumption). Qed.

Lemma int_repr_printable (z :
  Z) : Forall (fun c => printable c = true) (int_repr z).
Proof.
  destruct z; simpl; repeat constructor; apply uint_chars_printable.
Qed.

Lemma newline_indent_printable (level : nat) :
  Forall (fun c => printable c = true) (newline_indent level).
Proof.
  unfold newline_indent. constructor; [reflexivity|].
  induction (2 * level)%nat; simpl; constructor; (reflexivity || assumption).
Qed.

Lemma join_printable (sep : str) (parts : list str) :
  Forall (fun c => printable c = true) sep ->
  Forall (Forall (fun c => printable c = true)) parts ->
  Forall (fun c => printable c = true) (join sep parts).
Proof.
  intros Hsep Hparts. induction Hparts as [|a parts Ha Hrest IH]; simpl.
  - constructor.
  - destruct parts as [|b parts]; [exact Ha|].
    apply Forall_app. split; [exact Ha|].
    apply Forall_app. split; [exact Hsep|exact IH].
Qed.

Lemma strip_zeros_rev_printable (r : str) :
  Forall (fun c => printable c = true) r ->
  Forall (fun c => printable c = true) (Binary64.strip_zeros_rev r).
Proof.
  induction 1 as [|c r Hc Hr IH]; simpl; [constructor|].
  destruct (c =? 48); [exact IH|now constructor].
Qed.

Lemma firstn_printable (n : nat) (s : str) :
  Forall (fun c => printable c = true) s ->
  Forall (fun c => printable c = true) (firstn n s).
Proof.
  intros Hs. revert n. induction Hs as [|c s Hc Hs IH]; intros [|n]; simpl;
    constructor; auto.
Qed.

Lemma skipn_printable (n : nat) (s : str) :
  Forall (fun c => printable c = true) s ->
  Forall (fun c => printable c = true) (skipn n s).
Proof.
  intros Hs. revert n. induction Hs as [|c s Hc Hs IH]; intros [|n]; simpl;
    try constructor; auto.
Qed.

Lemma zeros_printable (n :
  Z) : Forall (fun c => printable c = true) (Binary64.zeros n).
Proof.
  unfold Binary64.zeros.
  induction (Z.to_nat n); simpl; constructor; (reflexivity || assumption).
Qed.

Lemma digit_chars_printable (z :
  Z) : Forall (fun c => printable c = true) (Binary64.digit_chars z).
Proof. apply uint_chars_printable. Qed.

Lemma repr_printable (x :
  spec_float) : Forall (fun c => printable c = true) (Binary64.repr x).
Proof.
  destruct x as [[|]|[|]| |s m e]; try (repeat constructor).
  unfold Binary64.repr.
  destruct (Binary64.ratio_of m e) as [num den].
  destruct (Binary64.shortest 16 1 (S754_finite s m e) num den) as [[d k] n].
  set (stripped := Binary64.strip_trailing_zeros (Binary64.digit_chars d)).
  assert (Hstripped : Forall (fun c => printable c = true) stripped).
  { unfold stripped, Binary64.strip_trailing_zeros.
    apply Forall_rev, strip_zeros_rev_printable, Forall_rev,
      digit_chars_printable. }
  set (digits := match stripped with [] => [48] | _ => stripped end).
  assert (Hdigits : Forall (fun c => printable c = true) digits).
  { unfold digits. destruct stripped; [repeat constructor|exact Hstripped]. }
  clearbody digits. clear Hstripped stripped.
  apply Forall_app. split; [destruct s; repeat constructor|].
  destruct ((k <? -4)%Z || (16 <=? k)%Z).
  { apply Forall_app. split; [now apply firstn_printable|].
    apply Forall_app. split.
    { pose proof (skipn_printable 1 digits Hdigits) as Hmore.
      destruct (skipn 1 digits); [constructor|].
      constructor; [reflexivity|exact Hmore]. }
    apply Forall_app. split; [repeat constructor|].
    apply Forall_app. split; [destruct (k <? 0)%Z; repeat constructor|].
    apply Forall_app.
    split; [destruct (Z.abs k <? 10)%Z; repeat constructor|].
    apply digit_chars_printable. }
  destruct (k <? 0)%Z.
  { apply Forall_app. split; [repeat constructor|].
    apply Forall_app. split; [apply zeros_printable|exact Hdigits]. }
  destruct (Z.of_nat (List.length digits) <=? k + 1)%Z.
  { apply Forall_app. split; [exact Hdigits|].
    apply Forall_app. split; [apply zeros_printable|repeat constructor]. }
  apply Forall_app. split; [now apply firstn_printable|].
  constructor; [reflexivity|now apply skipn_printable].
Qed.

Lemma floatstr_printable (o : spec_float) :
  Forall (fun c => printable c = true) (floatstr (F := Binary64.binary64) o).
Proof.
  unfold floatstr.
  repeat match goal with
         | |- Forall _ (if ?b then _ else _) =>
             destruct b; [repeat constructor|]
         end.
  exact (repr_printable o).
Qed.

Lemma iterencode_printable (v : pyval (F := Binary64.binary64)) :
  forall level, Forall (fun c => printable c = true) (iterencode v level).
Proof.
  induction v as [| b | z | f | s | items IH | items IH]
    using pyval_induction; intros level.
  - repeat constructor.
  - destruct b; repeat constructor.
  - apply int_repr_printable.
  - apply floatstr_printable.
  - apply encode_basestring_ascii_printable.
  - destruct items as [|item items]; [repeat constructor|].
    change (iterencode (PList (item :: items)) level)
      with ([91] ++ newline_indent (S level)
              ++ join (44 :: newline_indent (S level))
                   (map (fun value => iterencode value (S level))
                      (item :: items))
              ++ newline_indent level ++ [93]).
    apply Forall_app. split; [repeat constructor|].
    apply Forall_app. split; [apply newline_indent_printable|].
    apply Forall_app. split.
    + apply join_printable.
      * constructor; [reflexivity|apply newline_indent_printable].
      * apply Forall_forall. intros part Hpart. apply in_map_iff in Hpart.
        destruct Hpart as (value & <- & Hvalue).
        exact (proj1 (Forall_forall _ _) IH value Hvalue (S level)).
    + apply Forall_app. split;
        [apply newline_indent_printable|repeat constructor].
  - destruct items as [|item items]; [repeat constructor|].
    change (iterencode (PDict (item :: items)) level)
      with ([123] ++ newline_indent (S level)
              ++ join (44 :: newline_indent (S level))
                   (map (fun kv =>
                           encode_basestring_ascii (fst kv) ++ lit ": "
                             ++ iterencode (snd kv) (S level))
                      (item :: items))
              ++ newline_indent level ++ [125]).
    apply Forall_app. split; [repeat constructor|].
    apply Forall_app. split; [apply newline_indent_printable|].
    apply Forall_app. split.
    + apply join_printable.
      * constructor; [reflexivity|apply newline_indent_printable].
      * apply Forall_forall. intros part Hpart. apply in_map_iff in Hpart.
        destruct Hpart as (kv & <- & Hkv).
        apply Forall_app. split; [apply encode_basestring_ascii_printable|].
        apply Forall_app. split; [repeat constructor|].
        exact (proj1 (Forall_forall _ _) IH kv Hkv (S level)).
    + apply Forall_app. split;
        [apply newline_indent_printable|repeat constructor].
Qed.

(** X22: the text that [json.dumps(json_data, indent=2)] writes for the
    download holds only printable ASCII characters and line breaks, whatever
    characters the strings of the value hold: every other character is
    written as an escape. *)
Theorem download_is_printable_ascii (v : pyval (F := Binary64.binary64)) :
  Forall (fun c => printable c = true) (dumps v).
Proof. apply iterencode_printable. Qed.

End Printable.

(** ** Plain-text documents *)

Section Decoding.
Import Utf8.

Lemma decode_codes_ascii (codes : list N) :
  Forall (fun b => b < 128) codes -> decode_codes codes = Some codes.
Proof.
  induction 1 as [|b codes Hb _ IH]; simpl; [reflexivity|].
  apply N.ltb_lt in Hb. now rewrite Hb, IH.
Qed.

(** X23: a plain-text document of ASCII bytes is decoded to the characters
    with the codes of its bytes, one for one, and [extract_text] returns this
    text after the one call of the decoder. *)
Theorem ascii_text_is_taken_as_it_is (a : Prepared.Answers)
    (file : UploadedFile) :
  file_type file = text_mime ->
  Forall (fun b => Byte.to_N b < 128) (getvalue file) ->
  extract_text (L := Prepared.libraries a) file =
    (Normal (Some (map Byte.to_N (getvalue file))),
     [decode_call (getvalue file)]).
Proof.
  intros Htype Hascii.
  destruct mime_types_differ as (_ & Htp & Htd).
  unfold extract_text. rewrite Htype, Htp, Htd, eqb_refl.
  change (decode_utf8 (getvalue file)) with (decode (getvalue file)).
  unfold decode. rewrite decode_codes_ascii; [reflexivity|].
  now apply Forall_map.
Qed.

Lemma checked_Some (ok : bool) (c : N) (r : option str) (s : str) :
  checked ok c r = Some s ->
  ok = true /\ exists s', r = Some s' /\ s = c :: s'.
Proof.
  unfold checked. destruct ok; [|discriminate].
  destruct r as [s'|]; [|discriminate].
  intros H. inversion H; subst. split; [reflexivity|]. now exists s'.
Qed.

Lemma decode_codes_scalar (n : nat) :
  forall codes s,
    (List.length codes <= n)%nat ->
    decode_codes codes = Some s ->
    Forall (fun c => scalar c = true) s.
Proof.
  induction n as [|n IH]; intros codes s Hlen.
  - destruct codes; [|simpl in Hlen; lia].
    intros H. inversion H. constructor.
  - destruct codes as [|b0 rest]; [intros H; inversion H; constructor|].
    cbn [decode_codes]. cbn [List.length] in Hlen.
    destruct (N.ltb_spec b0 128) as [H1|H1].
    { intros H. apply checked_Some in H.
      destruct H as (_ & s' & Hrest & ->).
      constructor; [|apply (IH rest s'); [lia|exact Hrest]].
      unfold scalar. apply orb_true_iff. left. apply N.ltb_lt. lia. }
    destruct (N.ltb_spec b0 194) as [H2|H2]; [discriminate|].
    destruct (N.ltb_spec b0 224) as [H3|H3].
    { destruct rest as [|b1 rest']; [discriminate|].
      intros H. apply checked_Some in H.
      destruct H as (Hok & s' & Hrest & ->).
      unfold continuation in Hok. apply andb_true_iff in Hok.
      destruct Hok as [Hb1 Hb1']. apply N.leb_le in Hb1, Hb1'.
      constructor; [|apply (IH rest' s'); [simpl in Hlen; lia|exact Hrest]].
      unfold scalar. apply orb_true_iff. left. apply N.ltb_lt. lia. }
    destruct (N.ltb_spec b0 240) as [H4|H4].
    { destruct rest as [|b1 [|b2 rest']]; try discriminate.
      intros H. apply checked_Some in H.
      destruct H as (Hok & s' & Hrest & ->).
      repeat (apply andb_true_iff in Hok; destruct Hok as [Hok ?]).
      unfold continuation in *.
      repeat match goal with
             | H : _ && _ = true |- _ =>
                 apply andb_true_iff in H; destruct H
             | H : (_ <=? _) = true |- _ => apply N.leb_le in H
             end.
      constructor; [|apply (IH rest' s'); [simpl in Hlen; lia|exact Hrest]].
      unfold scalar.
      match goal with
      | H : negb _ = true |- _ =>
          apply negb_true_iff, andb_false_iff in H;
            destruct H as [H|H]; apply N.leb_gt in H
      end.
      - apply orb_true_iff. left. apply N.ltb_lt. lia.
      - apply orb_true_iff. right. apply andb_true_iff.
        split; apply N.ltb_lt; lia. }
    destruct (N.ltb_spec b0 245) as [H5|H5]; [|discriminate].
    destruct rest as [|b1 [|b2 [|b3 rest']]]; try discriminate.
    intros H. apply checked_Some in H.
    destruct H as (Hok & s' & Hrest & ->).
    repeat (apply andb_true_iff in Hok; destruct Hok as [Hok ?]).
    repeat match goal with
           | H : (_ <=? _) = true |- _ => apply N.leb_le in H
           end.
    constructor; [|apply (IH rest' s'); [simpl in Hlen; lia|exact Hrest]].
    unfold scalar. apply orb_true_iff. right. apply andb_true_iff.
    split; apply N.ltb_lt; lia.
Qed.

(** X24: the text decoded from a plain-text document holds Unicode scalar
    values only: no surrogate code point and nothing above 0x10FFFF comes
    out of the decoder, whatever the bytes are. *)
Theorem decoded_text_is_scalar (data : bytes) (s : str) :
  decode data = Ok s -> Forall (fun c => scalar c = true) s.
Proof.
  unfold decode.
  destruct (decode_codes (map Byte.to_N data)) as [s'|] eqn:E;
    [|discriminate].
  intros H. inversion H; subst.
  exact (decode_codes_scalar _ _ _ (le_n _) E).
Qed.

End Decoding.

Lemma ascii_text_witness :
  extract_text (L := Prepared.parsing [] []) (Prepared.text_file "Invoice 42")
    = (Normal (Some (lit "Invoice 42")),
       [decode_call (Utf8.ascii_bytes "Invoice 42")]).
Proof.
  apply (ascii_text_is_taken_as_it_is
           {| Prepared.pdf_answer := Ok [];
              Prepared.docx_answer := Ok [];
              Prepared.completion_answer := Ok (lit "{}") |}
           (Prepared.text_file "Invoice 42") eq_refl).
  repeat constructor.
Defined.

Lemma decoded_text_witness :
  let data := [Byte.x63; Byte.x61; Byte.x66; Byte.xc3; Byte.xa9; Byte.x20;
               Byte.xf0; Byte.x9f; Byte.x98; Byte.x80] in
  Utf8.decode data = Ok (lit "caf" ++ [233; 32; 128512])
  /\ Forall (fun c => scalar c = true) (lit "caf" ++ [233; 32; 128512]).
Proof.
  split; [reflexivity|].
  exact (decoded_text_is_scalar
           [Byte.x63; Byte.x61; Byte.x66; Byte.xc3; Byte.xa9; Byte.x20;
            Byte.xf0; Byte.x9f; Byte.x98; Byte.x80]
           (lit "caf" ++ [233; 32; 128512]) eq_refl).
Defined.

(** ** The three ends of a run *)

Section Ends.
Context {F : PyFloat} {L : Libraries}.

Lemma extract_text_raises (file : UploadedFile) (e : exn) (t : list call) :
  extract_text file = (Raised e, t) ->
  file_type file = text_mime /\ decode_utf8 (getvalue file) = Err e.
Proof.
  unfold extract_text.
  destruct (PyStr.eqb (file_type file) pdf_mime).
  { destruct (PdfReader_pages (getvalue file)) as [pages|e']; cbn.
    - destruct (comprehension page_extract_text pages); cbn; discriminate.
    - discriminate. }
  destruct (PyStr.eqb (file_type file) docx_mime).
  { destruct (Document_paragraphs (getvalue file)) as [paragraphs|e']; cbn.
    - destruct (comprehension paragraph_text paragraphs); cbn; discriminate.
    - discriminate. }
  destruct (PyStr.eqb (file_type file) text_mime) eqn:Htype.
  { apply eqb_eq in Htype.
    destruct (decode_utf8 (getvalue file)) as [text|e']; cbn;
      intros H; inversion H; subst. now split. }
  cbn. discriminate.
Qed.

Lemma get_input_text_cases (w : Widgets) (r : result str) (t : list call) :
  get_input_text w = (r, t) ->
  match r with
  | Normal input_text => truthy input_text = true
  | Stopped =>
      (uploaded_file w = None /\ text_input w = [])
      \/ (exists file t',
            uploaded_file w = Some file
            /\ (extract_text file = (Normal None, t')
                \/ extract_text file = (Normal (Some []), t')))
  | Raised e =>
      exists file,
        uploaded_file w = Some file
        /\ file_type file = text_mime
        /\ decode_utf8 (getvalue file) = Err e
  end.
Proof.
  unfold get_input_text.
  destruct (uploaded_file w) as [file|].
  - destruct (extract_text file) as [[[text|]|e|] t'] eqn:Hextract.
    + cbn [bind]. destruct (truthy text) eqn:Htext; cbn;
        intros H; inversion H; subst.
      * exact Htext.
      * right. exists file, t'. split; [reflexivity|]. right.
        apply truthy_false in Htext. now subst text.
    + cbn. intros H; inversion H; subst.
      right. exists file, t'. split; [reflexivity|]. now left.
    + cbn. intros H; inversion H; subst.
      exists file. split; [reflexivity|].
      exact (extract_text_raises _ _ _ Hextract).
    + destruct (extract_text_other _ _ _ Hextract).
  - destruct (truthy (text_input w)) eqn:Htext; cbn;
      intros H; inversion H; subst.
    + exact Htext.
    + left. split; [reflexivity|]. now apply truthy_false.
Qed.

(** X25: a run ends in one of three ways, each for its own reasons. When it
    ends normally there were a credential and a non-empty input text, and
    the completion endpoint has been called. It stops early only without a
    credential, without any input, or when the extraction of the uploaded
    document gave [None] or the empty string. And an exception leaves it
    only from the decoder of a plain-text document. *)
Theorem how_a_run_ends (w : Widgets) :
  match fst (process w) with
  | Normal _ =>
      truthy (api_key w) = true
      /\ exists input_text t0 rest,
           get_input_text w = (Normal input_text, t0)
           /\ truthy input_text = true
           /\ snd (process w) = t0 ++ completion_call w input_text :: rest
  | Stopped =>
      api_key w = []
      \/ (uploaded_file w = None /\ text_input w = [])
      \/ (exists file t,
            uploaded_file w = Some file
            /\ (extract_text file = (Normal None, t)
                \/ extract_text file = (Normal (Some []), t)))
  | Raised e =>
      exists file,
        uploaded_file w = Some file
        /\ file_type file = text_mime
        /\ decode_utf8 (getvalue file) = Err e
  end.
Proof.
  unfold process. destruct (truthy (api_key w)) eqn:Hkey.
  2: { cbn. left. now apply truthy_false. }
  cbn [negb].
  destruct (get_input_text w) as [[input_text|e|] t0] eqn:Hinput;
    pose proof (get_input_text_cases _ _ _ Hinput) as Hcases;
    cbn [bind ret].
  - destruct (analyze_outcome w input_text) as (rest & Hrun & _).
    rewrite Hrun. cbn. split; [reflexivity|].
    exists input_text, t0, rest. now repeat split.
  - cbn. exact Hcases.
  - cbn. right. exact Hcases.
Qed.

End Ends.

(** ** Keys that count as confidence keys *)

(** X26: a key counts as a confidence key wherever the word stands in it and
    however its letters are capitalised: what matters is that some part of
    the key is "confidence" once lowered. *)
Theorem confidence_key_ignores_case_and_position (pre word post : str) :
  lower word = lit "confidence" ->
  confidence_key (pre ++ word ++ post) = true.
Proof.
  intros Hword. unfold confidence_key, lower. rewrite !map_app.
  apply contains_skip. fold (lower word). rewrite Hword.
  apply contains_here.
Qed.

Lemma confidence_key_witness :
  confidence_key (lit "Total_" ++ lit "CONFidence" ++ lit "_Score") = true.
Proof.
  exact (confidence_key_ignores_case_and_position
           (lit "Total_") (lit "CONFidence") (lit "_Score") eq_refl).
Defined.
